(** * Cortex: the screenshot bridge and the tool-call handler

    A shallow embedding of [src/mac_screenshot_server.py] and
    [src/mcp_server.py].  Python text is a sequence of code points, binary
    data a sequence of bytes; dictionaries that are only read are finite
    maps, dictionaries that are serialised keep their insertion order.
    The operating system (file system, process table, connection, clocks)
    is an explicit state threaded through a state-and-exception monad. *)

From Stdlib Require Import NArith ZArith Lia List.
From Stdlib.Strings Require Import Ascii String Byte.
From Stdlib Require Import Floats.SpecFloat.
From stdpp Require Import gmap list.

Local Open Scope N_scope.

(** ** Text and bytes *)

(** A Python [str]: its code points. *)
Abbreviation pystr := (list N).

(** A Python [bytes] object. *)
Abbreviation pybytes := (list byte).

(** The code points of an ASCII literal of the source. *)
Definition u (s : string) : pystr :=
  map N_of_ascii (list_ascii_of_string s).

Definition dquote : pystr := [34].
Definition newline : pystr := [10].

Definition byte_of_N (n : N) : byte :=
  match Byte.of_N n with
  | Some b => b
  | None => x00
  end.

(** ** [base64.b64encode] / [base64.b64decode] (RFC 4648, standard alphabet) *)

Module Base64.

Definition alphabet : pystr :=
  u "ABCDEFGHIJKLMNOPQRSTUVWXYZabcdefghijklmnopqrstuvwxyz0123456789+/".

Definition pad_char : N := 61.

(** The character of a 6-bit value: [table_b2a_base64[i]]. *)
Definition b64_char (i : N) : N := nth (N.to_nat i) alphabet pad_char.

Fixpoint index_from (c : N) (l : pystr) (i : N) : option N :=
  match l with
  | [] => None
  | x :: l' => if x =? c then Some i else index_from c l' (N.succ i)
  end.

(** The 6-bit value of a character, [None] outside the alphabet. *)
Definition b64_index (c : N) : option N := index_from c alphabet 0.

(** Three bytes give four characters; a final group of one or two bytes is
    completed with zero bits and padded with [=]. *)
Fixpoint b64encode (bs : pybytes) : pystr :=
  match bs with
  | [] => []
  | [b0] =>
      let n := Byte.to_N b0 * 16 in
      [b64_char (n / 64); b64_char (n mod 64); pad_char; pad_char]
  | [b0; b1] =>
      let n := (Byte.to_N b0 * 256 + Byte.to_N b1) * 4 in
      [b64_char (n / 4096); b64_char ((n / 64) mod 64); b64_char (n mod 64);
       pad_char]
  | b0 :: b1 :: b2 :: rest =>
      let n := Byte.to_N b0 * 65536 + Byte.to_N b1 * 256 + Byte.to_N b2 in
      b64_char (n / 262144) :: b64_char ((n / 4096) mod 64)
        :: b64_char ((n / 64) mod 64) :: b64_char (n mod 64)
        :: b64encode rest
  end.

Definition decode_final1 (c0 c1 : N) : option pybytes :=
  match b64_index c0, b64_index c1 with
  | Some i0, Some i1 => Some [byte_of_N ((i0 * 64 + i1) / 16)]
  | _, _ => None
  end.

Definition decode_final2 (c0 c1 c2 : N) : option pybytes :=
  match b64_index c0, b64_index c1, b64_index c2 with
  | Some i0, Some i1, Some i2 =>
      let n := ((i0 * 64 + i1) * 64 + i2) / 4 in
      Some [byte_of_N (n / 256); byte_of_N (n mod 256)]
  | _, _, _ => None
  end.

Definition decode_quad (c0 c1 c2 c3 : N) : option pybytes :=
  match b64_index c0, b64_index c1, b64_index c2, b64_index c3 with
  | Some i0, Some i1, Some i2, Some i3 =>
      let n := ((i0 * 64 + i1) * 64 + i2) * 64 + i3 in
      Some [byte_of_N (n / 65536); byte_of_N ((n / 256) mod 256);
            byte_of_N (n mod 256)]
  | _, _, _, _ => None
  end.

(** Decoding of well-padded text, as [b64decode(s, validate=True)]:
    [None] stands for [binascii.Error]. *)
Fixpoint b64decode (s : pystr) : option pybytes :=
  match s with
  | [] => Some []
  | c0 :: c1 :: c2 :: c3 :: rest =>
      if c3 =? pad_char then
        match rest with
        | [] => if c2 =? pad_char then decode_final1 c0 c1
                else decode_final2 c0 c1 c2
        | _ :: _ => None
        end
      else
        match decode_quad c0 c1 c2 c3, b64decode rest with
        | Some g, Some bs => Some (g ++ bs)
        | _, _ => None
        end
  | _ => None
  end.

End Base64.

(** ** Numbers as text *)

(** Decimal digits, most significant first.  [fuel] bounds the number of
    digits; the binary size of [n] is always enough. *)
Fixpoint dec_digits (fuel : nat) (n : N) : pystr :=
  match fuel with
  | O => []
  | S f => if n <? 10 then [48 + n]
           else dec_digits f (n / 10) ++ [48 + n mod 10]
  end.

(** [str(n)] for a natural number. *)
Definition str_of_N (n : N) : pystr := dec_digits (S (N.size_nat n)) n.

(** [str(z)] for an [int]. *)
Definition str_of_Z (z : Z) : pystr :=
  if (z <? 0)%Z then 45 :: str_of_N (Z.abs_N z) else str_of_N (Z.abs_N z).

(** [s.zfill(k)] on a digit string. *)
Definition zfill (k : nat) (s : pystr) : pystr :=
  repeat 48 (k - length s) ++ s.

(** The [%0kd] conversion. *)
Definition pad (k : nat) (n : N) : pystr := zfill k (str_of_N n).

Definition is_digit (c : N) : bool := (48 <=? c) && (c <=? 57).

(** The number a digit string denotes, [None] if a character is no digit. *)
Fixpoint undigits_from (acc : N) (s : pystr) : option N :=
  match s with
  | [] => Some acc
  | c :: s' => if is_digit c then undigits_from (acc * 10 + (c - 48)) s'
               else None
  end.

Definition undigits (s : pystr) : option N :=
  match s with
  | [] => None
  | _ => undigits_from 0 s
  end.

Definition hex_digit (d : N) : N := if d <? 10 then 48 + d else 87 + d.

(** The [{0:04x}] conversion. *)
Definition hex4 (n : N) : pystr :=
  [hex_digit ((n / 4096) mod 16); hex_digit ((n / 256) mod 16);
   hex_digit ((n / 16) mod 16); hex_digit (n mod 16)].

Fixpoint join (sep : pystr) (l : list pystr) : pystr :=
  match l with
  | [] => []
  | [x] => x
  | x :: l' => x ++ sep ++ join sep l'
  end.

(** ** [datetime] *)

Record datetime := {
  year : N; month : N; day : N;
  hour : N; minute : N; second : N; microsecond : N
}.

Definition is_leap (y : N) : bool :=
  ((y mod 4 =? 0) && negb (y mod 100 =? 0)) || (y mod 400 =? 0).

Definition days_in_month (y m : N) : N :=
  if m =? 2 then (if is_leap y then 29 else 28)
  else if (m =? 4) || (m =? 6) || (m =? 9) || (m =? 11) then 30 else 31.

(** The range checks of the [datetime] constructor. *)
Definition valid_datetime (d : datetime) : bool :=
  (1 <=? year d) && (year d <=? 9999) && (1 <=? month d) && (month d <=? 12)
  && (1 <=? day d) && (day d <=? days_in_month (year d) (month d))
  && (hour d <? 24) && (minute d <? 60) && (second d <? 60)
  && (microsecond d <? 1000000).

(** [d.strftime("%Y%m%d_%H%M%S")] *)
Definition strftime_compact (d : datetime) : pystr :=
  pad 4 (year d) ++ pad 2 (month d) ++ pad 2 (day d) ++ u "_"
  ++ pad 2 (hour d) ++ pad 2 (minute d) ++ pad 2 (second d).

(** [d.isoformat()]: the fraction is printed only when it is not zero. *)
Definition isoformat (d : datetime) : pystr :=
  pad 4 (year d) ++ u "-" ++ pad 2 (month d) ++ u "-" ++ pad 2 (day d)
  ++ u "T" ++ pad 2 (hour d) ++ u ":" ++ pad 2 (minute d) ++ u ":"
  ++ pad 2 (second d)
  ++ (if microsecond d =? 0 then [] else u "." ++ pad 6 (microsecond d)).

(** Reads [k] digits, then expects the continuation [rest]. *)
Definition take_digits (k : nat) (s : pystr) : option (N * pystr) :=
  if (length s <? k)%nat then None
  else match undigits (firstn k s) with
       | Some n => Some (n, skipn k s)
       | None => None
       end.




(** ** Python values *)

(** The values a decoded JSON document is made of: what [Dict[str, Any]]
    holds when the arguments arrive over the tool protocol.  A float is
    its IEEE-754 value; a dictionary keeps its insertion order. *)
Unset Elimination Schemes.
Inductive pyval :=
| PNone
| PBool (b : bool)
| PInt (z : Z)
| PFloat (f : spec_float)
| PStr (s : pystr)
| PList (l : list pyval)
| PDict (d : list (pystr * pyval)).
Set Elimination Schemes.

(** [bool(v)] *)
Definition py_truthy (v : pyval) : bool :=
  match v with
  | PNone => false
  | PBool b => b
  | PInt z => negb (z =? 0)%Z
  | PFloat (S754_zero _) => false
  | PFloat _ => true
  | PStr s => negb (length s =? 0)%nat
  | PList l => negb (length l =? 0)%nat
  | PDict d => negb (length d =? 0)%nat
  end.

(** [d[k]] on an insertion-ordered dictionary. *)
Fixpoint assoc (k : pystr) (d : list (pystr * pyval)) : option pyval :=
  match d with
  | [] => None
  | (k', v) :: d' => if decide (k' = k) then Some v else assoc k d'
  end.

(** [arguments.get(k, dflt)] *)
Definition dict_get (m : gmap pystr pyval) (k : pystr) (dflt : pyval)
  : pyval :=
  default dflt (m !! k).

(** ** [json.dumps] with its default options *)

(** What [ensure_ascii=True] writes for one character of a string. *)
Definition json_escape_char (c : N) : pystr :=
  if c =? 34 then [92; 34]
  else if c =? 92 then [92; 92]
  else if c =? 10 then [92; 110]
  else if c =? 13 then [92; 114]
  else if c =? 9 then [92; 116]
  else if c =? 8 then [92; 98]
  else if c =? 12 then [92; 102]
  else if (32 <=? c) && (c <=? 126) then [c]
  else if c <? 65536 then [92; 117] ++ hex4 c
  else
    let n := c - 65536 in
    [92; 117] ++ hex4 (55296 + (n / 1024) mod 1024)
    ++ [92; 117] ++ hex4 (56320 + n mod 1024).

Definition json_string (s : pystr) : pystr :=
  dquote ++ concat (map json_escape_char s) ++ dquote.

(** ** Exceptions *)

Inductive exn :=
| TimeoutExpired (cmd : list pystr) (timeout : N)
| RuntimeError (msg : pystr)
| OSError (msg : pystr)
| FileNotFoundError (path : pystr)
| UnicodeEncodeError (pos : nat)
| UnicodeDecodeError (reason : pystr).

(** ** The operating system *)

(** What running a command does: it cannot be started, or it runs for
    [duration] milliseconds ([None]: it never finishes by itself) and then
    exits with a return code.  [stdout] and [stderr] are its two output
    streams decoded as text, as [text=True] asks; a command whose output
    is not text in the locale's encoding is a [RunsGarbled], [reason]
    being the text of the [UnicodeDecodeError].  [writes] are the files
    the command has written by the time it ends, by itself or killed. *)
Inductive exec_result :=
| CannotStart (msg : pystr)
| Runs (duration : option N) (returncode : Z) (stdout stderr : pystr)
       (writes : list (pystr * pybytes))
| RunsGarbled (duration : option N) (returncode : Z) (reason : pystr)
              (writes : list (pystr * pybytes)).

Inductive fs_op :=
| OpMkdir (path : pystr)
| OpOpenAppend (path : pystr)
| OpWrite (path : pystr)
| OpRemove (path : pystr).

(** The characters [repr] of a finite float is written with. *)
Inductive float_sym :=
| FDigit (d : N)
| FDot
| FMinus
| FPlus
| FExp.

Definition float_sym_code (c : float_sym) : N :=
  match c with
  | FDigit d => 48 + d mod 10
  | FDot => 46
  | FMinus => 45
  | FPlus => 43
  | FExp => 101
  end.

(** Everything the handlers take from outside.  [float_repr] and
    [str_repr] are Python's [repr] on a finite float and on a string;
    [fs_fault] tells which file operations the system refuses, with the
    text of the [OSError]; [wall_clock n] is the [n]-th reading of the
    system clock and [loop_time n] the [n]-th reading of the event loop's
    monotonic clock. *)
Record env := {
  exec : list pystr -> exec_result;
  fs_fault : fs_op -> option pystr;
  wall_clock : nat -> datetime;
  loop_time : nat -> spec_float;
  home : pystr;
  float_repr : spec_float -> list float_sym;
  str_repr : pystr -> pystr
}.

Inductive proc_status :=
| Exited (returncode : Z)
| Killed.

Record process := { proc_argv : list pystr; proc_status_of : proc_status }.

(** What a request handler puts on its connection. *)
Inductive wire_event :=
| SendResponse (code : N)
| SendHeader (key value : pystr)
| EndHeaders
| WfileWrite (data : pybytes)
| SendError (code : N) (message : pystr).

(** [ticks] counts the readings of the system clock so far and
    [loop_reads] those of the event loop's clock. *)
Record world := {
  files : gmap pystr pybytes;
  dirs : gset pystr;
  procs : list process;
  wire : list wire_event;
  ticks : nat;
  loop_reads : nat
}.

Definition with_files (f : gmap pystr pybytes) (w : world) : world :=
  {| files := f; dirs := dirs w; procs := procs w; wire := wire w;
     ticks := ticks w; loop_reads := loop_reads w |}.

Definition with_dirs (d : gset pystr) (w : world) : world :=
  {| files := files w; dirs := d; procs := procs w; wire := wire w;
     ticks := ticks w; loop_reads := loop_reads w |}.

Definition with_procs (p : list process) (w : world) : world :=
  {| files := files w; dirs := dirs w; procs := p; wire := wire w;
     ticks := ticks w; loop_reads := loop_reads w |}.

Definition with_wire (o : list wire_event) (w : world) : world :=
  {| files := files w; dirs := dirs w; procs := procs w; wire := o;
     ticks := ticks w; loop_reads := loop_reads w |}.

Definition with_ticks (n : nat) (w : world) : world :=
  {| files := files w; dirs := dirs w; procs := procs w; wire := wire w;
     ticks := n; loop_reads := loop_reads w |}.

Definition with_loop_reads (n : nat) (w : world) : world :=
  {| files := files w; dirs := dirs w; procs := procs w; wire := wire w;
     ticks := ticks w; loop_reads := n |}.

(** ** Computations: state and exceptions *)

Inductive res (A : Type) :=
| Val (a : A)
| Exc (e : exn).
Arguments Val {A} a.
Arguments Exc {A} e.

Definition M (A : Type) : Type := world -> res A * world.

Definition ret {A} (a : A) : M A := fun w => (Val a, w).

Definition raise {A} (e : exn) : M A := fun w => (Exc e, w).

Definition bind {A B} (c : M A) (k : A -> M B) : M B :=
  fun w => match c w with
           | (Val a, w') => k a w'
           | (Exc e, w') => (Exc e, w')
           end.

(** [try: c  except Exception as e: h e] *)
Definition try_except {A} (c : M A) (h : exn -> M A) : M A :=
  fun w => match c w with
           | (Val a, w') => (Val a, w')
           | (Exc e, w') => h e w'
           end.

Declare Scope py_scope.
Delimit Scope py_scope with py.
Notation "x <- c ;; k" := (bind c (fun x => k))
  (at level 100, c at next level, k at level 200, only parsing) : py_scope.
Notation "c ;; k" := (bind c (fun _ => k))
  (at level 100, k at level 200, only parsing) : py_scope.

Local Open Scope py_scope.

Section Program.

Context (E : env).

(** ** Rendering values *)

(** [repr(f)] for a float. *)
Definition py_float_repr (f : spec_float) : pystr :=
  match f with
  | S754_nan => u "nan"
  | S754_infinity false => u "inf"
  | S754_infinity true => u "-inf"
  | _ => map float_sym_code (float_repr E f)
  end.

(** [repr(v)] *)
Fixpoint py_repr (v : pyval) : pystr :=
  match v with
  | PNone => u "None"
  | PBool true => u "True"
  | PBool false => u "False"
  | PInt z => str_of_Z z
  | PFloat f => py_float_repr f
  | PStr s => str_repr E s
  | PList l => u "[" ++ join (u ", ") (map py_repr l) ++ u "]"
  | PDict d =>
      u "{"
      ++ join (u ", ")
           (map (fun kv => str_repr E (fst kv) ++ u ": " ++ py_repr (snd kv))
                d)
      ++ u "}"
  end.

(** [str(v)], which is what an f-string field [{v}] inserts. *)
Definition py_str (v : pyval) : pystr :=
  match v with
  | PStr s => s
  | _ => py_repr v
  end.

(** A float in a JSON document. *)
Definition json_float (f : spec_float) : pystr :=
  match f with
  | S754_nan => u "NaN"
  | S754_infinity false => u "Infinity"
  | S754_infinity true => u "-Infinity"
  | _ => map float_sym_code (float_repr E f)
  end.

(** [json.dumps(v)]: separators [", "] and [": "], non-ASCII escaped. *)
Fixpoint json_dumps (v : pyval) : pystr :=
  match v with
  | PNone => u "null"
  | PBool true => u "true"
  | PBool false => u "false"
  | PInt z => str_of_Z z
  | PFloat f => json_float f
  | PStr s => json_string s
  | PList l => u "[" ++ join (u ", ") (map json_dumps l) ++ u "]"
  | PDict d =>
      u "{"
      ++ join (u ", ")
           (map (fun kv => json_string (fst kv) ++ u ": "
                           ++ json_dumps (snd kv)) d)
      ++ u "}"
  end.

(** [str(e)] *)
Definition exn_str (e : exn) : pystr :=
  match e with
  | TimeoutExpired cmd timeout =>
      u "Command '" ++ py_repr (PList (map PStr cmd))
      ++ u "' timed out after " ++ str_of_N timeout ++ u " seconds"
  | RuntimeError msg => msg
  | OSError msg => msg
  | FileNotFoundError path =>
      u "[Errno 2] No such file or directory: " ++ str_repr E path
  | UnicodeEncodeError pos =>
      u "'utf-8' codec can't encode character in position "
      ++ str_of_N (N.of_nat pos) ++ u ": surrogates not allowed"
  | UnicodeDecodeError reason => reason
  end.

(** ** [str.encode()] *)

Definition utf8_char (c : N) : option pybytes :=
  if c <? 128 then Some [byte_of_N c]
  else if c <? 2048 then
    Some [byte_of_N (192 + c / 64); byte_of_N (128 + c mod 64)]
  else if (55296 <=? c) && (c <=? 57343) then None
  else if c <? 65536 then
    Some [byte_of_N (224 + c / 4096); byte_of_N (128 + (c / 64) mod 64);
          byte_of_N (128 + c mod 64)]
  else if c <? 1114112 then
    Some [byte_of_N (240 + c / 262144); byte_of_N (128 + (c / 4096) mod 64);
          byte_of_N (128 + (c / 64) mod 64); byte_of_N (128 + c mod 64)]
  else None.

Fixpoint utf8_from (pos : nat) (s : pystr) : res pybytes :=
  match s with
  | [] => Val []
  | c :: s' =>
      match utf8_char c with
      | None => Exc (UnicodeEncodeError pos)
      | Some bs =>
          match utf8_from (S pos) s' with
          | Val r => Val (bs ++ r)
          | Exc e => Exc e
          end
      end
  end.

Definition str_encode (s : pystr) : M pybytes :=
  fun w => (utf8_from 0 s, w).

(** ** Library calls on the world *)

(** [datetime.datetime.now()] *)
Definition datetime_now : M datetime :=
  fun w => (Val (wall_clock E (ticks w)), with_ticks (S (ticks w)) w).

(** [asyncio.get_event_loop().time()]: a fresh reading of the monotonic
    clock at each call. *)
Definition event_loop_time : M spec_float :=
  fun w => (Val (loop_time E (loop_reads w)),
            with_loop_reads (S (loop_reads w)) w).

Record CompletedProcess := {
  cp_returncode : Z; cp_stdout : pystr; cp_stderr : pystr
}.

Definition apply_writes (ws : list (pystr * pybytes))
    (f : gmap pystr pybytes) : gmap pystr pybytes :=
  fold_left (fun f kv => <[fst kv := snd kv]> f) ws f.

(** Whether a child that needs [duration] milliseconds is done before a
    wait of [timeout] seconds runs out. *)
Definition finishes_within (duration : option N) (timeout : N) : bool :=
  match duration with
  | Some d => d <=? timeout * 1000
  | None => false
  end.

(** [subprocess.run(argv, capture_output=True, text=True, timeout=t)]:
    the child is started, and waited for at most [t] seconds.  When the
    wait runs out the child is killed and [TimeoutExpired] is raised;
    when the child has ended and its output does not decode,
    [UnicodeDecodeError] is raised.  What the child has written stays
    written in every case. *)
Definition subprocess_run (argv : list pystr) (timeout : N)
  : M CompletedProcess :=
  fun w =>
    let ended := fun status writes =>
      with_files (apply_writes writes (files w))
        (with_procs (procs w ++ [{| proc_argv := argv;
                                    proc_status_of := status |}]) w) in
    match exec E argv with
    | CannotStart msg => (Exc (OSError msg), w)
    | Runs duration rc out err writes =>
        if finishes_within duration timeout then
          (Val {| cp_returncode := rc; cp_stdout := out; cp_stderr := err |},
           ended (Exited rc) writes)
        else
          (Exc (TimeoutExpired argv timeout), ended Killed writes)
    | RunsGarbled duration rc reason writes =>
        if finishes_within duration timeout then
          (Exc (UnicodeDecodeError reason), ended (Exited rc) writes)
        else
          (Exc (TimeoutExpired argv timeout), ended Killed writes)
    end.

(** [with open(path, "rb") as f: f.read()] *)
Definition read_binary (path : pystr) : M pybytes :=
  fun w => match files w !! path with
           | Some data => (Val data, w)
           | None => (Exc (FileNotFoundError path), w)
           end.

(** [os.remove(path)] *)
Definition os_remove (path : pystr) : M unit :=
  fun w => match fs_fault E (OpRemove path) with
           | Some msg => (Exc (OSError msg), w)
           | None =>
               match files w !! path with
               | Some _ => (Val tt, with_files (delete path (files w)) w)
               | None => (Exc (FileNotFoundError path), w)
               end
           end.

Fixpoint lstrip_slash (s : pystr) : pystr :=
  match s with
  | c :: s' => if c =? 47 then lstrip_slash s' else s
  | [] => []
  end.

(** [s.rstrip("/")] *)
Definition rstrip_slash (s : pystr) : pystr :=
  rev (lstrip_slash (rev s)).

(** [os.path.expanduser(path)] with [$HOME] set; a [~user] prefix, which
    the handlers never pass, is left as it is. *)
Definition expanduser (path : pystr) : pystr :=
  match path with
  | 126 :: rest =>
      match rest with
      | [] => match rstrip_slash (home E) with
              | [] => u "/"
              | h => h
              end
      | 47 :: _ => rstrip_slash (home E) ++ rest
      | _ => path
      end
  | _ => path
  end.

(** The directories on the way to [path], from the top down, [path]
    itself last: its prefixes that end before a [/]. *)
Fixpoint dir_chain_from (acc rest : pystr) : list pystr :=
  let here := match last acc with
              | Some c => if c =? 47 then [] else [acc]
              | None => []
              end in
  match rest with
  | [] => here
  | c :: rest' =>
      (if c =? 47 then here else []) ++ dir_chain_from (acc ++ [c]) rest'
  end.

Definition dir_chain (path : pystr) : list pystr := dir_chain_from [] path.

(** [os.mkdir(name)] as [os.makedirs] calls it with [exist_ok=True]: a
    directory that is already there is not an error. *)
Definition mkdir_exist_ok (name : pystr) : M unit :=
  fun w => if decide (name ∈ dirs w) then (Val tt, w)
           else match fs_fault E (OpMkdir name) with
                | Some msg => (Exc (OSError msg), w)
                | None => (Val tt, with_dirs ({[name]} ∪ dirs w) w)
                end.

(** The recursion of [os.makedirs]: [lineage] is the directory to make
    followed by its ancestors, nearest first; an ancestor is made, with
    its own, only when it is missing. *)
Fixpoint makedirs_lineage (lineage : list pystr) : M unit :=
  match lineage with
  | [] => ret tt
  | name :: ancestors =>
      (match ancestors with
       | head :: _ =>
           fun w => if decide (head ∈ dirs w) then (Val tt, w)
                    else makedirs_lineage ancestors w
       | [] => ret tt
       end) ;;
      mkdir_exist_ok name
  end.

(** [os.makedirs(path, exist_ok=True)] *)
Definition os_makedirs (path : pystr) : M unit :=
  makedirs_lineage (rev (dir_chain path)).

(** [open(path, "a")]: the file is created when it does not exist. *)
Definition open_append (path : pystr) : M unit :=
  fun w => match fs_fault E (OpOpenAppend path) with
           | Some msg => (Exc (OSError msg), w)
           | None =>
               (Val tt,
                with_files (<[path := default [] (files w !! path)]> (files w))
                           w)
           end.

(** [f.write(text)] on a file opened for appending, and its flush when
    the [with] block is left. *)
Definition file_write (path : pystr) (text : pystr) : M unit :=
  data <- str_encode text ;;
  fun w => match fs_fault E (OpWrite path) with
           | Some msg => (Exc (OSError msg), w)
           | None =>
               (Val tt,
                with_files
                  (<[path := default [] (files w !! path) ++ data]> (files w))
                  w)
           end.

Definition emit (ev : wire_event) : M unit :=
  fun w => (Val tt, with_wire (wire w ++ [ev]) w).

(** [ScreenshotHandler.log_message]: the line it prints starts with the
    time of day, read from the system clock; the console is left out. *)
Definition log_message : M unit :=
  _ <- datetime_now ;; ret tt.

(** [send_response] first logs the request ([log_request]), then sends
    the status line with the [Server] and [Date] headers. *)
Definition send_response (code : N) : M unit :=
  log_message ;; emit (SendResponse code).

Definition send_header (k v : pystr) : M unit := emit (SendHeader k v).
Definition end_headers : M unit := emit EndHeaders.
Definition wfile_write (data : pybytes) : M unit := emit (WfileWrite data).

(** [send_error] logs the error ([log_error]), then sends the whole error
    page through [send_response]. *)
Definition send_error (code : N) (msg : pystr) : M unit :=
  log_message ;; log_message ;; emit (SendError code msg).

(** ** [mac_screenshot_server.py] *)

Definition json_headers : M unit :=
  send_header (u "Content-Type") (u "application/json") ;;
  send_header (u "Access-Control-Allow-Origin") (u "*") ;;
  end_headers.

Definition capture_command (temp_filename : pystr) : list pystr :=
  [u "xcrun"; u "simctl"; u "io"; u "booted"; u "screenshot"; temp_filename].

(** [ScreenshotHandler.handle_screenshot_request].  The [print] calls
    write to the console only and are left out; [b64encode(..).decode()]
    is the text of the encoding. *)
Definition handle_screenshot_request : M unit :=
  try_except
    (started <- datetime_now ;;
     let timestamp := strftime_compact started in
     let temp_filename :=
       u "/tmp/simulator_screenshot_" ++ timestamp ++ u ".png" in
     result <- subprocess_run (capture_command temp_filename) 10 ;;
     (if negb (cp_returncode result =? 0)%Z
      then raise (RuntimeError
                    (u "Simulator screenshot failed: " ++ cp_stderr result))
      else ret tt) ;;
     image_bytes <- read_binary temp_filename ;;
     let b64_image := Base64.b64encode image_bytes in
     try_except (os_remove temp_filename) (fun _ => ret tt) ;;
     served <- datetime_now ;;
     let response_data :=
       PDict [(u "success", PBool true);
              (u "image", PStr b64_image);
              (u "timestamp", PStr (isoformat served))] in
     send_response 200 ;;
     json_headers ;;
     body <- str_encode (json_dumps response_data) ;;
     wfile_write body)
    (fun e =>
       let error_response :=
         PDict [(u "success", PBool false);
                (u "error", PStr (exn_str e))] in
       send_response 500 ;;
       json_headers ;;
       body <- str_encode (json_dumps error_response) ;;
       wfile_write body).

(** [ScreenshotHandler.handle_health_check] *)
Definition handle_health_check : M unit :=
  let response_data :=
    PDict [(u "status", PStr (u "healthy"));
           (u "server", PStr (u "mac_screenshot_server"))] in
  send_response 200 ;;
  json_headers ;;
  body <- str_encode (json_dumps response_data) ;;
  wfile_write body.

(** [ScreenshotHandler.handle_hello_request] *)
Definition handle_hello_request : M unit :=
  send_response 200 ;;
  json_headers ;;
  body <- str_encode
            (json_dumps (PDict [(u "message", PStr (u "Hello from Mac!"))])) ;;
  wfile_write body.

(** [ScreenshotHandler.do_GET], [path] being [self.path]. *)
Definition do_GET (path : pystr) : M unit :=
  if decide (path = u "/screenshot") then handle_screenshot_request
  else if decide (path = u "/health") then handle_health_check
  else if decide (path = u "/hello") then handle_hello_request
  else send_error 404 (u "Not Found").

(** ** [mcp_server.py] *)

Record TextContent := { tc_type : pystr; tc_text : pystr }.

Definition text_content (text : pystr) : list TextContent :=
  [{| tc_type := u "text"; tc_text := text |}].

Definition indent12 : pystr := repeat 32 12.

(** The f-string of the AppleScript source, between its triple quotes. *)
Definition applescript_of (title message severity : pyval) : pystr :=
  newline ++ indent12
  ++ u "display alert " ++ dquote ++ py_str title ++ dquote
  ++ u " message " ++ dquote ++ py_str message ++ dquote
  ++ u " as " ++ py_str severity ++ u " giving up after 10"
  ++ newline ++ indent12.

Definition alert_command (title message severity : pyval) : list pystr :=
  [u "osascript"; u "-e"; applescript_of title message severity].

(** The dictionary literal bound to [log_entry]. *)
Definition make_log_entry (now : spec_float)
    (activity productive app_name : pyval) : pyval :=
  PDict [(u "timestamp", PFloat now);
         (u "activity", activity);
         (u "productive", productive);
         (u "app_name", app_name)].

(** [handle_call_tool(name, arguments)] *)
Definition handle_call_tool (name : pystr) (arguments : gmap pystr pyval)
  : M (list TextContent) :=
  if decide (name = u "show_popup") then
    let title := dict_get arguments (u "title")
                   (PStr (u "Productivity Alert")) in
    let message := dict_get arguments (u "message")
                     (PStr (u "Please return to your productive work")) in
    let severity := dict_get arguments (u "severity") (PStr (u "warning")) in
    try_except
      (let applescript := applescript_of title message severity in
       result <- subprocess_run [u "osascript"; u "-e"; applescript] 15 ;;
       if (cp_returncode result =? 0)%Z then
         ret (text_content
                (u "Popup displayed successfully: '" ++ py_str title
                 ++ u "' - '" ++ py_str message ++ u "'"))
       else
         ret (text_content
                (u "Failed to display popup: " ++ cp_stderr result)))
      (fun e =>
         match e with
         | TimeoutExpired _ _ =>
             ret (text_content (u "Popup display timed out"))
         | _ =>
             ret (text_content (u "Error displaying popup: " ++ exn_str e))
         end)
  else if decide (name = u "log_activity") then
    let activity := dict_get arguments (u "activity")
                      (PStr (u "Unknown activity")) in
    let productive := dict_get arguments (u "productive") (PBool false) in
    let app_name := dict_get arguments (u "app_name")
                      (PStr (u "Unknown app")) in
    now <- event_loop_time ;;
    let log_entry := make_log_entry now activity productive app_name in
    try_except
      (let log_dir := expanduser (u "~/Library/Logs/Cortex") in
       os_makedirs log_dir ;;
       open_append (log_dir ++ u "/activity.log") ;;
       file_write (log_dir ++ u "/activity.log")
                  (json_dumps log_entry ++ newline) ;;
       ret (text_content
              (u "Activity logged: " ++ py_str activity ++ u " ("
               ++ (if py_truthy productive then u "productive"
                   else u "unproductive")
               ++ u ") in " ++ py_str app_name)))
      (fun e =>
         ret (text_content (u "Failed to log activity: " ++ exn_str e)))
  else
    ret (text_content (u "Unknown tool: " ++ name)).

End Program.

(** ** The tool list *)

(** The ["required"] entry of each [inputSchema] of [handle_list_tools]. *)
Definition required_params (name : pystr) : list pystr :=
  if decide (name = u "show_popup") then [u "title"; u "message"]
  else if decide (name = u "log_activity") then [u "activity"; u "productive"]
  else [].

(** The ["enum"] of the [severity] property. *)
Definition severity_enum : list pyval :=
  [PStr (u "info"); PStr (u "warning"); PStr (u "critical")].

(** The second argument of the [arguments.get] call that reads a
    parameter in [handle_call_tool]. *)
Definition get_default (name key : pystr) : option pyval :=
  if decide (name = u "show_popup") then
    if decide (key = u "title") then Some (PStr (u "Productivity Alert"))
    else if decide (key = u "message") then
      Some (PStr (u "Please return to your productive work"))
    else if decide (key = u "severity") then Some (PStr (u "warning"))
    else None
  else if decide (name = u "log_activity") then
    if decide (key = u "activity") then Some (PStr (u "Unknown activity"))
    else if decide (key = u "productive") then Some (PBool false)
    else if decide (key = u "app_name") then Some (PStr (u "Unknown app"))
    else None
  else None.

(** ** Reading the connection *)

(** The status line a client sees: the first one sent. *)
Fixpoint status_of (evs : list wire_event) : option N :=
  match evs with
  | [] => None
  | SendResponse code :: _ => Some code
  | SendError code _ :: _ => Some code
  | _ :: evs' => status_of evs'
  end.

(** ** Vocabulary of the statements *)

(** Printable ASCII: what a line of a JSON document is made of. *)
Definition printable (c : N) : Prop := 32 <= c < 127.

(** The bytes of a text that is pure ASCII. *)
Definition ascii_bytes (s : pystr) : pybytes := map byte_of_N s.

(** The events of a JSON response with the given status and body. *)
Definition json_response (code : N) (body : pybytes) : list wire_event :=
  [SendResponse code;
   SendHeader (u "Content-Type") (u "application/json");
   SendHeader (u "Access-Control-Allow-Origin") (u "*");
   EndHeaders;
   WfileWrite body].

(** The temporary file of a screenshot taken at [d]. *)
Definition temp_filename_at (d : datetime) : pystr :=
  u "/tmp/simulator_screenshot_" ++ strftime_compact d ++ u ".png".

(** The content of a file, empty when there is none. *)
Definition content (w : world) (path : pystr) : pybytes :=
  default [] (files w !! path).

(** The directory and the file of the activity log. *)
Definition log_dir (E : env) : pystr :=
  expanduser E (u "~/Library/Logs/Cortex").

Definition log_path (E : env) : pystr := log_dir E ++ u "/activity.log".

(** A machine that refuses no file operation. *)
Definition refuses_nothing (E : env) : Prop :=
  forall op, fs_fault E op = None.

(** The record [log_activity] builds from its arguments at the clock
    reading [now]. *)
Definition log_entry_of (now : spec_float) (arguments : gmap pystr pyval)
  : pyval :=
  make_log_entry now
    (dict_get arguments (u "activity") (PStr (u "Unknown activity")))
    (dict_get arguments (u "productive") (PBool false))
    (dict_get arguments (u "app_name") (PStr (u "Unknown app"))).

(** A field of a record. *)
Definition entry_field (k : pystr) (entry : pyval) : option pyval :=
  match entry with
  | PDict d => assoc k d
  | _ => None
  end.

Definition entry_keys (entry : pyval) : list pystr :=
  match entry with
  | PDict d => map fst d
  | _ => []
  end.

(** The three parameters of an alert as [show_popup] reads them. *)
Definition popup_title (arguments : gmap pystr pyval) : pyval :=
  dict_get arguments (u "title") (PStr (u "Productivity Alert")).

Definition popup_message (arguments : gmap pystr pyval) : pyval :=
  dict_get arguments (u "message")
    (PStr (u "Please return to your productive work")).

Definition popup_severity (arguments : gmap pystr pyval) : pyval :=
  dict_get arguments (u "severity") (PStr (u "warning")).

(** The confirmation [log_activity] answers with. *)
Definition logged_text (E : env) (arguments : gmap pystr pyval) : pystr :=
  u "Activity logged: "
  ++ py_str E (dict_get arguments (u "activity") (PStr (u "Unknown activity")))
  ++ u " ("
  ++ (if py_truthy (dict_get arguments (u "productive") (PBool false))
      then u "productive" else u "unproductive")
  ++ u ") in "
  ++ py_str E (dict_get arguments (u "app_name") (PStr (u "Unknown app"))).

(** The answer of the tool-call handler made of the one text [text]. *)
Definition one_text (text : pystr) : list TextContent :=
  [{| tc_type := u "text"; tc_text := text |}].

(** The body of a 500 answer with the error text [msg], as a line. *)
Definition error_line (msg : pystr) : pybytes :=
  ascii_bytes
    ([123; 34] ++ u "success" ++ [34] ++ u ": false, "
     ++ [34] ++ u "error" ++ [34] ++ u ": " ++ json_string msg ++ [125]).

(** The body of a 200 answer with the given base64 text and time. *)
Definition success_line (image timestamp : pystr) : pybytes :=
  ascii_bytes
    ([123; 34] ++ u "success" ++ [34] ++ u ": true, "
     ++ [34] ++ u "image" ++ [34] ++ u ": "
     ++ [34] ++ image ++ [34] ++ u ", "
     ++ [34] ++ u "timestamp" ++ [34] ++ u ": "
     ++ [34] ++ timestamp ++ [34; 125]).

(** A line of the activity log, given the JSON texts of its four values. *)
Definition record_text (timestamp activity productive app_name : pystr)
  : pystr :=
  [123; 34] ++ u "timestamp" ++ [34] ++ u ": " ++ timestamp ++ u ", "
  ++ [34] ++ u "activity" ++ [34] ++ u ": " ++ activity ++ u ", "
  ++ [34] ++ u "productive" ++ [34] ++ u ": " ++ productive ++ u ", "
  ++ [34] ++ u "app_name" ++ [34] ++ u ": " ++ app_name ++ [125].

(** The value [arguments.get(key, dflt)] gives, spelled out. *)
Definition supplied_or (arguments : gmap pystr pyval) (key : pystr)
    (dflt : pyval) : pyval :=
  match arguments !! key with
  | Some v => v
  | None => dflt
  end.

(** The text of the AppleScript handed to [osascript]. *)
Definition alert_script (title message severity : pystr) : pystr :=
  [10] ++ repeat 32 12
  ++ u "display alert " ++ [34] ++ title ++ [34]
  ++ u " message " ++ [34] ++ message ++ [34]
  ++ u " as " ++ severity ++ u " giving up after 10"
  ++ [10] ++ repeat 32 12.

(** The world after the capture command [cmd] has stopped, one clock
    reading after [w]. *)
Definition after_capture (status : proc_status)
    (writes : list (pystr * pybytes)) (cmd : list pystr) (w : world) : world :=
  with_files (apply_writes writes (files w))
    (with_procs (procs w ++ [{| proc_argv := cmd; proc_status_of := status |}])
                (with_ticks (S (ticks w)) w)).

(** The world after a command [cmd] run from [w] has stopped. *)
Definition after_run (status : proc_status)
    (writes : list (pystr * pybytes)) (cmd : list pystr) (w : world) : world :=
  with_files (apply_writes writes (files w))
    (with_procs (procs w ++ [{| proc_argv := cmd; proc_status_of := status |}])
                w).

(** ** Concrete scenarios *)

Module Demo.

Definition noon : datetime :=
  {| year := 2024; month := 2; day := 29; hour := 12; minute := 0;
     second := 7; microsecond := 0 |}.

(** The first bytes of a PNG file. *)
Definition png_stub : pybytes := [x89; x50; x4e; x47; x0d; x0a; x1a; x0a].

(** A machine on which the capture command writes [png_stub] to the path
    it is given and every other command succeeds silently; [refused]
    tells which file operations fail. *)
Definition machine (refused : fs_op -> option pystr) : env :=
  {| exec := fun argv =>
       match argv with
       | [_; _; _; _; _; path] => Runs (Some 200) 0 [] [] [(path, png_stub)]
       | _ => Runs (Some 300) 0 [] [] []
       end;
     fs_fault := refused;
     wall_clock := fun _ => noon;
     loop_time := fun _ => S754_zero false;
     home := u "/Users/dev";
     float_repr := fun _ => [FDigit 0; FDot; FDigit 0];
     str_repr := fun s => u "'" ++ s ++ u "'" |}.

Definition healthy : env := machine (fun _ => None).


(** A machine whose capture command fails. *)
Definition no_simulator : env :=
  {| exec := fun _ => Runs (Some 150) 2 [] (u "No devices are booted.") [];
     fs_fault := fun _ => None;
     wall_clock := fun _ => noon;
     loop_time := fun _ => S754_zero false;
     home := u "/Users/dev";
     float_repr := fun _ => [FDigit 0; FDot; FDigit 0];
     str_repr := fun s => u "'" ++ s ++ u "'" |}.

(** A machine without the [osascript] program. *)
Definition no_osascript : env :=
  {| exec := fun _ =>
       CannotStart (u "[Errno 2] No such file or directory: 'osascript'");
     fs_fault := fun _ => None;
     wall_clock := fun _ => noon;
     loop_time := fun _ => S754_zero false;
     home := u "/Users/dev";
     float_repr := fun _ => [FDigit 0; FDot; FDigit 0];
     str_repr := fun s => u "'" ++ s ++ u "'" |}.

(** A machine whose commands exit 2 with output that is not text. *)
Definition garbled : env :=
  {| exec := fun _ =>
       RunsGarbled (Some 150) 2
         (u "'utf-8' codec can't decode byte 0xff in position 0: invalid start byte")
         [];
     fs_fault := fun _ => None;
     wall_clock := fun _ => noon;
     loop_time := fun _ => S754_zero false;
     home := u "/Users/dev";
     float_repr := fun _ => [FDigit 0; FDot; FDigit 0];
     str_repr := fun s => u "'" ++ s ++ u "'" |}.

Definition boot : world :=
  {| files := ∅; dirs := ∅; procs := []; wire := []; ticks := 0;
     loop_reads := 0 |}.

Definition browsing : gmap pystr pyval :=
  <[u "activity" := PStr (u "browsing")]>
    (<[u "productive" := PBool false]>
       (<[u "app_name" := PStr (u "Safari")]> ∅)).

Definition bogus_alert : gmap pystr pyval :=
  <[u "title" := PStr (u "Focus")]>
    (<[u "message" := PStr (u "Back to work")]>
       (<[u "severity" := PStr (u "bogus")]> ∅)).

End Demo.

(** ** The rest of [mcp_server.py] *)

Record Tool := {
  tool_name : pystr;
  tool_description : pystr;
  inputSchema : pyval
}.

Definition string_property (description : pystr) : pyval :=
  PDict [(u "type", PStr (u "string"));
         (u "description", PStr description)].

(** [handle_list_tools()] *)
Definition handle_list_tools : list Tool :=
  [ {| tool_name := u "show_popup";
       tool_description :=
         u "Display a popup warning to the user about unproductive activity";
       inputSchema :=
         PDict
           [(u "type", PStr (u "object"));
            (u "properties",
             PDict
               [(u "title",
                 string_property
                   (u "Title of the popup (e.g., 'Productivity Alert')"));
                (u "message",
                 string_property
                   (u "Warning message to display (e.g., 'You are browsing Instagram. Consider returning to your goal.')"));
                (u "severity",
                 PDict [(u "type", PStr (u "string"));
                        (u "enum",
                         PList [PStr (u "info"); PStr (u "warning");
                                PStr (u "critical")]);
                        (u "description",
                         PStr (u "Severity level of the alert"));
                        (u "default", PStr (u "warning"))])]);
            (u "required", PList [PStr (u "title"); PStr (u "message")])] |};
    {| tool_name := u "log_activity";
       tool_description := u "Log user activity for tracking purposes";
       inputSchema :=
         PDict
           [(u "type", PStr (u "object"));
            (u "properties",
             PDict
               [(u "activity",
                 string_property
                   (u "Description of the user's current activity"));
                (u "productive",
                 PDict [(u "type", PStr (u "boolean"));
                        (u "description",
                         PStr (u "Whether the activity is considered productive"))]);
                (u "app_name",
                 string_property (u "Name of the application being used"))]);
            (u "required",
             PList [PStr (u "activity"); PStr (u "productive")])] |} ].

(** [handle_list_resources()] *)
Definition handle_list_resources : list pyval := [].

(** [handle_read_resource(uri)] *)
Definition handle_read_resource (uri : pystr) : pystr := [].

(** The names under ["properties"] in a tool's schema. *)
Definition tool_properties (t : Tool) : list pystr :=
  match entry_field (u "properties") (inputSchema t) with
  | Some props => entry_keys props
  | None => []
  end.

(** The parameters the schema of the tool called [name] declares; none
    when no such tool is listed. *)
Definition declared_params (name : pystr) : list pystr :=
  concat (map tool_properties
              (filter (fun t => tool_name t = name) handle_list_tools)).

(** ** The rest of [mac_screenshot_server.py] *)

(** [main()]: [httpd.serve_forever()] on a plain [HTTPServer] takes the
    requests one at a time; [paths] are the paths of the GET requests that
    arrive before the server is interrupted. *)
Fixpoint serve_forever (E : env) (paths : list pystr) : M unit :=
  match paths with
  | [] => ret tt
  | path :: rest => do_GET E path ;; serve_forever E rest
  end.

(** ** More vocabulary *)

(** The status lines sent on a connection, in order. *)
Fixpoint statuses (evs : list wire_event) : list N :=
  match evs with
  | [] => []
  | SendResponse code :: evs' => code :: statuses evs'
  | SendError code _ :: evs' => code :: statuses evs'
  | _ :: evs' => statuses evs'
  end.

(** The state of a connection after a JSON answer. *)
Definition answered (code : N) (body : pybytes) (w : world) : world :=
  with_wire (wire w ++ json_response code body) w.

(** Two instants within the same second. *)
Definition same_second (a b : datetime) : Prop :=
  year a = year b /\ month a = month b /\ day a = day b
  /\ hour a = hour b /\ minute a = minute b /\ second a = second b.

(** A character [json.dumps] writes as it is. *)
Definition unescaped (c : N) : Prop := 32 <= c <= 126 /\ c <> 34 /\ c <> 92.

(** The line [log_activity] writes for its arguments at the clock
    reading [now]. *)
Definition log_line (E : env) (now : spec_float)
    (arguments : gmap pystr pyval) : pybytes :=
  ascii_bytes (json_dumps E (log_entry_of now arguments)) ++ [x0a].

Module Cases.

(** A machine whose commands exit 0 without writing anything. *)
Definition silent : env :=
  {| exec := fun _ => Runs (Some 120) 0 [] [] [];
     fs_fault := fun _ => None;
     wall_clock := fun _ => Demo.noon;
     loop_time := fun _ => S754_zero false;
     home := u "/Users/dev";
     float_repr := fun _ => [FDigit 0; FDot; FDigit 0];
     str_repr := fun s => u "'" ++ s ++ u "'" |}.

(** A machine that keeps its partial file: the capture command writes
    and then hangs. *)
Definition hangs_after_writing : env :=
  {| exec := fun argv =>
       match argv with
       | [_; _; _; _; _; path] => Runs None 0 [] [] [(path, Demo.png_stub)]
       | _ => Runs None 0 [] [] []
       end;
     fs_fault := fun _ => None;
     wall_clock := fun _ => Demo.noon;
     loop_time := fun _ => S754_zero false;
     home := u "/Users/dev";
     float_repr := fun _ => [FDigit 0; FDot; FDigit 0];
     str_repr := fun s => u "'" ++ s ++ u "'" |}.

(** A machine whose event loop clock shows 1.0, 2.0, ... at successive
    readings; [repr] is right on these values. *)
Definition ticking : env :=
  {| exec := fun _ => Runs (Some 300) 0 [] [] [];
     fs_fault := fun _ => None;
     wall_clock := fun _ => Demo.noon;
     loop_time := fun n => S754_finite false (Pos.of_succ_nat n) 0;
     home := u "/Users/dev";
     float_repr := fun f =>
       match f with
       | S754_finite false m 0 =>
           map (fun c => FDigit (c - 48)) (str_of_N (N.pos m))
           ++ [FDot; FDigit 0]
       | _ => [FDigit 0; FDot; FDigit 0]
       end;
     str_repr := fun s => u "'" ++ s ++ u "'" |}.

(** Later in the same second as [Demo.noon]. *)
Definition noon_later : datetime :=
  {| year := 2024; month := 2; day := 29; hour := 12; minute := 0;
     second := 7; microsecond := 250000 |}.

Definition coding : gmap pystr pyval :=
  <[u "activity" := PStr (u "coding")]>
    (<[u "productive" := PBool true]> ∅).

End Cases.

(** * Properties *)

Ltac divmod := Z.to_euclidean_division_equations; lia.

(** ** Text: what [json.dumps] writes is printable ASCII *)

Lemma dec_digits_printable f n : Forall printable (dec_digits f n).
Proof.
  revert n. induction f as [|f IH]; intros n; cbn [dec_digits].
  - constructor.
  - destruct (N.ltb_spec n 10).
    + repeat constructor; unfold printable; lia.
    + apply Forall_app. split; [apply IH|].
      repeat constructor; unfold printable; zify; divmod.
Qed.

Lemma str_of_Z_printable z : Forall printable (str_of_Z z).
Proof.
  unfold str_of_Z, str_of_N. destruct (z <? 0)%Z.
  - constructor; [unfold printable; lia | apply dec_digits_printable].
  - apply dec_digits_printable.
Qed.

Lemma hex_digit_printable d : d < 16 -> printable (hex_digit d).
Proof. unfold hex_digit, printable. destruct (N.ltb_spec d 10); lia. Qed.

Lemma hex4_printable n : Forall printable (hex4 n).
Proof.
  unfold hex4. repeat constructor; apply hex_digit_printable; zify; divmod.
Qed.

Lemma json_escape_char_printable c : Forall printable (json_escape_char c).
Proof.
  unfold json_escape_char.
  repeat match goal with
         | |- context [if ?x =? ?y then _ else _] => destruct (N.eqb_spec x y)
         end;
    try (repeat constructor; unfold printable; lia).
  destruct (N.leb_spec 32 c); destruct (N.leb_spec c 126); cbn [andb];
    try (repeat constructor; unfold printable; lia);
    destruct (c <? 65536);
    repeat (apply Forall_app; split);
    try apply hex4_printable; repeat constructor; unfold printable; lia.
Qed.

Lemma concat_printable (l : list pystr) :
  Forall (Forall printable) l -> Forall printable (concat l).
Proof.
  induction 1; cbn; [constructor | apply Forall_app; auto].
Qed.

Lemma u_printable_check (s : pystr) :
  forallb (fun c => (32 <=? c) && (c <? 127)) s = true -> Forall printable s.
Proof.
  intros H. apply Forall_forall. intros c Hc.
  rewrite forallb_forall in H. apply list_elem_of_In in Hc.
  apply H in Hc. apply andb_true_iff in Hc as [H1 H2].
  apply N.leb_le in H1. apply N.ltb_lt in H2. split; assumption.
Qed.

Ltac lit_printable := apply u_printable_check; vm_compute; reflexivity.

Lemma json_string_printable s : Forall printable (json_string s).
Proof.
  unfold json_string. apply Forall_app. split; [lit_printable|].
  apply Forall_app. split; [|lit_printable].
  apply concat_printable. apply Forall_map, Forall_forall. intros c _.
  apply json_escape_char_printable.
Qed.

Lemma join_printable sep l :
  Forall printable sep -> Forall (Forall printable) l ->
  Forall printable (join sep l).
Proof.
  intros Hsep. induction 1 as [|x l Hx Hl IH]; cbn [join]; [constructor|].
  destruct l as [|y l']; [assumption|].
  apply Forall_app. split; [assumption|]. apply Forall_app. split; assumption.
Qed.

Lemma float_sym_printable c : printable (float_sym_code c).
Proof. destruct c; unfold printable; cbn [float_sym_code]; try lia. zify; divmod. Qed.

Lemma json_float_printable E f : Forall printable (json_float E f).
Proof.
  destruct f as [s| [|] | |s m e]; cbn [json_float]; try lit_printable;
    apply Forall_map, Forall_forall; intros c _; apply float_sym_printable.
Qed.

Lemma pyval_ind (P : pyval -> Prop) :
  P PNone -> (forall b, P (PBool b)) -> (forall z, P (PInt z)) ->
  (forall f, P (PFloat f)) -> (forall s, P (PStr s)) ->
  (forall l, Forall P l -> P (PList l)) ->
  (forall d, Forall (fun kv => P (snd kv)) d -> P (PDict d)) ->
  forall v, P v.
Proof.
  intros HN HB HI HF HS HL HD.
  fix IH 1. intros [ |b|z|f|s|l|d].
  - exact HN.
  - apply HB.
  - apply HI.
  - apply HF.
  - apply HS.
  - apply HL. induction l as [|x l IHl]; constructor; [apply IH | exact IHl].
  - apply HD. induction d as [|[k x] d IHd]; constructor; [apply IH | exact IHd].
Qed.

Theorem json_dumps_printable E v : Forall printable (json_dumps E v).
Proof.
  induction v as [ |b|z|f|s|l IH|d IH] using pyval_ind; cbn [json_dumps].
  - lit_printable.
  - destruct b; lit_printable.
  - apply str_of_Z_printable.
  - apply json_float_printable.
  - apply json_string_printable.
  - apply Forall_app. split; [lit_printable|].
    apply Forall_app. split; [|lit_printable].
    apply join_printable; [lit_printable|].
    apply Forall_map. exact IH.
  - apply Forall_app. split; [lit_printable|].
    apply Forall_app. split; [|lit_printable].
    apply join_printable; [lit_printable|].
    apply Forall_map. eapply Forall_impl; [exact IH|].
    intros [k x] Hx. cbn [fst snd] in *.
    apply Forall_app. split; [apply json_string_printable|].
    apply Forall_app. split; [lit_printable | exact Hx].
Qed.

(** ** Encoding text, and the newline byte *)

Lemma utf8_from_ascii pos s :
  Forall (fun c => c < 128) s -> utf8_from pos s = Val (ascii_bytes s).
Proof.
  intros H. revert pos. induction H as [|c s Hc Hs IH]; intros pos.
  - reflexivity.
  - cbn [utf8_from]. unfold utf8_char.
    destruct (N.ltb_spec c 128) as [_|Hge]; [|lia].
    rewrite IH. reflexivity.
Qed.

Lemma printable_7bit s : Forall printable s -> Forall (fun c => c < 128) s.
Proof.
  intros H. eapply Forall_impl; [exact H|].
  unfold printable. intros c Hc. lia.
Qed.



Lemma undigits_from_app acc s t :
  undigits_from acc (s ++ t) =
  match undigits_from acc s with
  | Some a => undigits_from a t
  | None => None
  end.
Proof.
  revert acc. induction s as [|c s IH]; intros acc; cbn [undigits_from app].
  - reflexivity.
  - destruct (is_digit c); [apply IH|reflexivity].
Qed.

Lemma undigits_from_zeros acc j :
  undigits_from acc (repeat 48 j) = Some (acc * 10 ^ N.of_nat j).
Proof.
  revert acc. induction j as [|j IH]; intros acc.
  - cbn. f_equal. lia.
  - cbn [repeat undigits_from]. change (is_digit 48) with true. cbv iota.
    rewrite IH. f_equal. rewrite Nat2N.inj_succ, N.pow_succ_r'. lia.
Qed.

Lemma dec_digits_value f n acc :
  n < 10 ^ N.of_nat f ->
  undigits_from acc (dec_digits f n)
  = Some (acc * 10 ^ N.of_nat (length (dec_digits f n)) + n).
Proof.
  revert n acc. induction f as [|f IH]; intros n acc Hn.
  - cbn in *. f_equal. lia.
  - cbn [dec_digits]. destruct (N.ltb_spec n 10) as [Hlt|Hge].
    + cbn [undigits_from length]. unfold is_digit.
      destruct (N.leb_spec 48 (48 + n)); [|lia].
      destruct (N.leb_spec (48 + n) 57); [|lia].
      cbn [andb]. f_equal. change (10 ^ N.of_nat 1) with 10. lia.
    + rewrite Nat2N.inj_succ, N.pow_succ_r' in Hn.
      assert (Hq : n / 10 < 10 ^ N.of_nat f).
      { generalize dependent (10 ^ N.of_nat f). intros p _ Hp.
        apply N.Div0.div_lt_upper_bound. lia. }
      rewrite undigits_from_app, IH by exact Hq.
      cbn [undigits_from]. unfold is_digit.
      destruct (N.leb_spec 48 (48 + n mod 10)); [|zify; divmod].
      destruct (N.leb_spec (48 + n mod 10) 57); [|zify; divmod].
      cbn [andb]. f_equal.
      rewrite length_app. cbn [length]. rewrite Nat.add_1_r.
      rewrite Nat2N.inj_succ, N.pow_succ_r'.
      set (p := 10 ^ N.of_nat (length (dec_digits f (n / 10)))).
      pose proof (N.div_mod n 10 ltac:(lia)). nia.
Qed.

Lemma dec_digits_length f n k :
  (0 < k)%nat -> n < 10 ^ N.of_nat k -> (length (dec_digits f n) <= k)%nat.
Proof.
  revert n k. induction f as [|f IH]; intros n k Hk Hn; cbn [dec_digits].
  - cbn. lia.
  - destruct (N.ltb_spec n 10) as [Hlt|Hge]; [cbn; lia|].
    destruct k as [|[|k]]; [lia| cbn in Hn; lia |].
    rewrite length_app. cbn [length].
    assert (length (dec_digits f (n / 10)) <= S k)%nat; [|lia].
    apply IH; [lia|].
    rewrite (Nat2N.inj_succ (S k)), N.pow_succ_r' in Hn.
    apply N.Div0.div_lt_upper_bound. lia.
Qed.

Lemma size_nat_bound n : n < 10 ^ N.of_nat (S (N.size_nat n)).
Proof.
  destruct n as [|p]; [cbn; lia|].
  assert (H : N.pos p < 2 ^ N.of_nat (N.size_nat (N.pos p))).
  { cbn [N.size_nat]. induction p as [p IH|p IH|]; cbn [Pos.size_nat];
      rewrite ?Nat2N.inj_succ, ?N.pow_succ_r'; cbn; try lia. }
  rewrite Nat2N.inj_succ, N.pow_succ_r'.
  assert (2 ^ N.of_nat (N.size_nat (N.pos p)) <= 10 ^ N.of_nat (N.size_nat (N.pos p))).
  { apply N.pow_le_mono_l. lia. }
  lia.
Qed.

(** ** Decimal fields and ISO-8601 timestamps *)

Lemma str_of_N_value n acc :
  undigits_from acc (str_of_N n)
  = Some (acc * 10 ^ N.of_nat (length (str_of_N n)) + n).
Proof. apply dec_digits_value, size_nat_bound. Qed.

Lemma pad_length k n :
  (0 < k)%nat -> n < 10 ^ N.of_nat k -> length (pad k n) = k.
Proof.
  intros Hk Hn. unfold pad, zfill. rewrite length_app, repeat_length.
  pose proof (dec_digits_length (S (N.size_nat n)) n k Hk Hn).
  unfold str_of_N. lia.
Qed.

Lemma take_digits_pad k n rest :
  (0 < k)%nat -> n < 10 ^ N.of_nat k ->
  take_digits k (pad k n ++ rest) = Some (n, rest).
Proof.
  intros Hk Hn. pose proof (pad_length k n Hk Hn) as Hlen.
  unfold take_digits.
  destruct (Nat.ltb_spec (length (pad k n ++ rest)) k) as [Hlt|_].
  { rewrite length_app in Hlt. lia. }
  rewrite (take_app_length' (pad k n) rest k) by (symmetry; exact Hlen).
  rewrite (drop_app_length' (pad k n) rest k) by (symmetry; exact Hlen).
  assert (Hval : undigits (pad k n) = Some n).
  { unfold undigits. destruct (pad k n) eqn:Hp; [cbn in Hlen; lia|].
    rewrite <- Hp. unfold pad, zfill.
    rewrite undigits_from_app, undigits_from_zeros, str_of_N_value.
    f_equal; lia. }
  now rewrite Hval.
Qed.

Lemma valid_datetime_bounds d :
  valid_datetime d = true ->
  year d < 10 ^ N.of_nat 4 /\ month d < 10 ^ N.of_nat 2
  /\ day d < 10 ^ N.of_nat 2 /\ hour d < 10 ^ N.of_nat 2
  /\ minute d < 10 ^ N.of_nat 2 /\ second d < 10 ^ N.of_nat 2
  /\ microsecond d < 10 ^ N.of_nat 6.
Proof.
  unfold valid_datetime. rewrite !andb_true_iff.
  rewrite !N.leb_le, !N.ltb_lt.
  intros (((((((((H1 & H2) & H3) & H4) & H5) & H6) & H7) & H8) & H9) & H10).
  assert (days_in_month (year d) (month d) <= 31).
  { unfold days_in_month.
    repeat match goal with |- context [if ?b then _ else _] => destruct b end;
      lia. }
  change (10 ^ N.of_nat 4) with 10000. change (10 ^ N.of_nat 2) with 100.
  change (10 ^ N.of_nat 6) with 1000000. lia.
Qed.



(** ** Base64 *)

Section Base64Facts.
Import Base64.

Lemma below_64_cases (P : N -> bool) :
  forallb P (map N.of_nat (seq 0 64)) = true ->
  forall i, i < 64 -> P i = true.
Proof.
  intros Hall i Hi.
  rewrite forallb_forall in Hall. apply Hall.
  apply in_map_iff. exists (N.to_nat i). split; [apply N2Nat.id|].
  apply in_seq. lia.
Qed.

Lemma b64_index_char i : i < 64 -> b64_index (b64_char i) = Some i.
Proof.
  intros Hi.
  pose proof (below_64_cases
    (fun i => match b64_index (b64_char i) with
              | Some j => j =? i
              | None => false
              end)) as H.
  specialize (H ltac:(vm_compute; reflexivity) i Hi). cbv beta in H.
  destruct (b64_index (b64_char i)) as [j|]; [|discriminate].
  apply N.eqb_eq in H. now subst.
Qed.

Lemma b64_char_not_pad i : i < 64 -> (b64_char i =? pad_char) = false.
Proof.
  intros Hi.
  apply (below_64_cases (fun i => negb (b64_char i =? pad_char))
           ltac:(vm_compute; reflexivity)) in Hi.
  now apply negb_true_iff in Hi.
Qed.

Lemma byte_of_to_N b : byte_of_N (Byte.to_N b) = b.
Proof. unfold byte_of_N. now rewrite Byte.of_to_N. Qed.

Lemma to_N_lt b : Byte.to_N b < 256.
Proof. pose proof (Byte.to_N_bounded b). lia. Qed.

Lemma group3_arith a b c :
  a < 256 -> b < 256 -> c < 256 ->
  let n := a * 65536 + b * 256 + c in
  n / 262144 < 64 /\ (n / 4096) mod 64 < 64 /\ (n / 64) mod 64 < 64
  /\ n mod 64 < 64
  /\ ((n / 262144 * 64 + (n / 4096) mod 64) * 64 + (n / 64) mod 64) * 64
       + n mod 64 = n
  /\ n / 65536 = a /\ (n / 256) mod 256 = b /\ n mod 256 = c.
Proof. intros; subst n; repeat split; zify; divmod. Qed.

Lemma group2_arith a b :
  a < 256 -> b < 256 ->
  let n := (a * 256 + b) * 4 in
  n / 4096 < 64 /\ (n / 64) mod 64 < 64 /\ n mod 64 < 64
  /\ ((n / 4096 * 64 + (n / 64) mod 64) * 64 + n mod 64) / 4 = a * 256 + b
  /\ (a * 256 + b) / 256 = a /\ (a * 256 + b) mod 256 = b.
Proof. intros; subst n; repeat split; zify; divmod. Qed.

Lemma group1_arith a :
  a < 256 ->
  let n := a * 16 in
  n / 64 < 64 /\ n mod 64 < 64 /\ (n / 64 * 64 + n mod 64) / 16 = a.
Proof. intros; subst n; repeat split; zify; divmod. Qed.

Lemma list_ind3 {A} (P : list A -> Prop) :
  P [] -> (forall a, P [a]) -> (forall a b, P [a; b]) ->
  (forall a b c l, P l -> P (a :: b :: c :: l)) ->
  forall l, P l.
Proof.
  intros H0 H1 H2 H3.
  fix IH 1. intros [|a [|b [|c l]]].
  - exact H0.
  - apply H1.
  - apply H2.
  - apply H3, IH.
Qed.

(** C8. Encoding any byte sequence to base64 text and decoding that text
    gives back exactly the original bytes. *)
Theorem b64decode_b64encode (bs : pybytes) :
  b64decode (b64encode bs) = Some bs.
Proof.
  induction bs as [|a|a b|a b c l IH] using list_ind3.
  - reflexivity.
  - pose proof (group1_arith _ (to_N_lt a)) as (H0 & H1 & H2).
    cbn [b64encode b64decode]. rewrite N.eqb_refl.
    unfold decode_final1. rewrite !b64_index_char by assumption.
    now rewrite H2, byte_of_to_N.
  - pose proof (group2_arith _ _ (to_N_lt a) (to_N_lt b))
      as (H0 & H1 & H2 & H3 & H4 & H5).
    cbn [b64encode b64decode]. rewrite N.eqb_refl.
    rewrite (b64_char_not_pad _ H2).
    unfold decode_final2. rewrite !b64_index_char by assumption.
    cbv zeta. now rewrite H3, H4, H5, !byte_of_to_N.
  - pose proof (group3_arith _ _ _ (to_N_lt a) (to_N_lt b) (to_N_lt c))
      as (H0 & H1 & H2 & H3 & H4 & H5 & H6 & H7).
    cbn [b64encode b64decode]. rewrite (b64_char_not_pad _ H3).
    unfold decode_quad. rewrite !b64_index_char by assumption.
    cbv zeta. rewrite H4, H5, H6, H7, IH, !byte_of_to_N. reflexivity.
Qed.

End Base64Facts.

(** ** The screenshot server *)

Lemma encode_json E v w :
  str_encode (json_dumps E v) w = (Val (ascii_bytes (json_dumps E v)), w).
Proof.
  unfold str_encode.
  now rewrite utf8_from_ascii by apply printable_7bit, json_dumps_printable.
Qed.

(** A JSON answer: the request is logged, which reads the clock once,
    then the status line, the two headers and the body are sent. *)
Lemma send_json E code v w :
  (send_response E code ;; json_headers ;;
   body <- str_encode (json_dumps E v) ;; wfile_write body)%py w
  = (Val tt,
     answered code (ascii_bytes (json_dumps E v))
       (with_ticks (S (ticks w)) w)).
Proof.
  unfold bind, send_response, log_message, datetime_now, ret, json_headers,
    send_header, end_headers, wfile_write, emit, bind. rewrite encode_json.
  unfold answered, with_wire, with_ticks. cbn. rewrite <- !app_assoc.
  reflexivity.
Qed.

Lemma answer_error E e w :
  (send_response E 500 ;; json_headers ;;
   body <- str_encode
             (json_dumps E (PDict [(u "success", PBool false);
                                   (u "error", PStr (exn_str E e))])) ;;
   wfile_write body)%py w
  = (Val tt, answered 500 (error_line (exn_str E e))
               (with_ticks (S (ticks w)) w)).
Proof. rewrite send_json. reflexivity. Qed.

Lemma unescaped_check (s : pystr) :
  forallb (fun c => (32 <=? c) && (c <=? 126) && negb (c =? 34)
                    && negb (c =? 92)) s = true ->
  Forall unescaped s.
Proof.
  intros H. apply Forall_forall. intros c Hc.
  rewrite forallb_forall in H. apply list_elem_of_In in Hc.
  apply H in Hc. rewrite !andb_true_iff, !negb_true_iff in Hc.
  destruct Hc as [[[H1 H2] H3] H4].
  apply N.leb_le in H1, H2. apply N.eqb_neq in H3, H4.
  repeat split; assumption.
Qed.

Lemma json_escape_unescaped c : unescaped c -> json_escape_char c = [c].
Proof.
  intros ((Hlo & Hhi) & H34 & H92). unfold json_escape_char.
  repeat match goal with
         | |- context [if ?x =? ?y then _ else _] =>
             destruct (N.eqb_spec x y); [lia|]
         end.
  destruct (N.leb_spec 32 c); [|lia]. destruct (N.leb_spec c 126); [|lia].
  reflexivity.
Qed.

Lemma json_string_unescaped s :
  Forall unescaped s -> json_string s = dquote ++ s ++ dquote.
Proof.
  intros H. unfold json_string. do 2 f_equal.
  induction H as [|c s Hc Hs IH]; [reflexivity|].
  cbn [map concat]. now rewrite json_escape_unescaped, IH.
Qed.

Lemma b64_char_in_alphabet i :
  In (Base64.b64_char i) (Base64.pad_char :: Base64.alphabet).
Proof.
  unfold Base64.b64_char.
  destruct (nth_in_or_default (N.to_nat i) Base64.alphabet Base64.pad_char)
    as [H| ->]; [now right | now left].
Qed.

Lemma dec_digits_unescaped f n : Forall unescaped (dec_digits f n).
Proof.
  revert n. induction f as [|f IH]; intros n; cbn [dec_digits].
  - constructor.
  - destruct (N.ltb_spec n 10).
    + repeat constructor; lia.
    + apply Forall_app. split; [apply IH|].
      repeat constructor; zify; divmod.
Qed.

Lemma pad_unescaped k n : Forall unescaped (pad k n).
Proof.
  unfold pad, zfill. apply Forall_app. split.
  - apply Forall_forall. intros c Hc. apply list_elem_of_In in Hc.
    apply repeat_spec in Hc. subst. repeat split; lia.
  - apply dec_digits_unescaped.
Qed.

Lemma isoformat_unescaped d : Forall unescaped (isoformat d).
Proof.
  unfold isoformat.
  repeat (apply Forall_app; split;
          [first [apply pad_unescaped
                 | apply unescaped_check; reflexivity]|]).
  destruct (microsecond d =? 0); [constructor|].
  apply Forall_app. split; [apply unescaped_check; reflexivity|].
  apply pad_unescaped.
Qed.

Lemma b64encode_unescaped bs : Forall unescaped (Base64.b64encode bs).
Proof.
  assert (Hall : Forall unescaped (Base64.pad_char :: Base64.alphabet))
    by (apply unescaped_check; vm_compute; reflexivity).
  assert (Hc : forall i, unescaped (Base64.b64_char i)).
  { intros i. rewrite Forall_forall in Hall. apply Hall.
    apply list_elem_of_In, b64_char_in_alphabet. }
  assert (Hp : unescaped Base64.pad_char) by (repeat split; discriminate).
  induction bs as [|a|a b|a b c l IH] using list_ind3;
    cbn [Base64.b64encode]; cbv zeta;
    repeat (apply Forall_cons; split; [auto|]); auto.
Qed.

(** The body of a 200 answer is the line with the base64 text and the ISO
    time verbatim: nothing in them is escaped. *)
Lemma success_body E data served :
  ascii_bytes
    (json_dumps E
       (PDict [(u "success", PBool true);
               (u "image", PStr (Base64.b64encode data));
               (u "timestamp", PStr (isoformat served))]))
  = success_line (Base64.b64encode data) (isoformat served).
Proof.
  unfold success_line. f_equal. cbn [json_dumps map join fst snd].
  rewrite (json_string_unescaped (Base64.b64encode data))
    by apply b64encode_unescaped.
  rewrite (json_string_unescaped (isoformat served))
    by apply isoformat_unescaped.
  rewrite <- !app_assoc. reflexivity.
Qed.

(** What [handle_screenshot_request] does, by what the capture command
    and the file system do. *)
Lemma screenshot_run E w :
  let path := temp_filename_at (wall_clock E (ticks w)) in
  let cmd := capture_command path in
  let failed := fun msg w' =>
    (Val tt, answered 500 (error_line msg) (with_ticks (S (S (ticks w))) w')) in
  let timed_out := fun writes =>
    failed (exn_str E (TimeoutExpired cmd 10))
           (after_capture Killed writes cmd w) in
  handle_screenshot_request E w =
  match exec E cmd with
  | CannotStart msg => failed msg w
  | Runs dur rc out err writes =>
      if finishes_within dur 10 then
        let w1 := after_capture (Exited rc) writes cmd w in
        if (rc =? 0)%Z then
          match apply_writes writes (files w) !! path with
          | None =>
              failed (u "[Errno 2] No such file or directory: "
                      ++ str_repr E path) w1
          | Some data =>
              (Val tt,
               answered 200
                 (success_line (Base64.b64encode data)
                    (isoformat (wall_clock E (S (ticks w)))))
                 (with_ticks (S (S (S (ticks w))))
                    match fs_fault E (OpRemove path) with
                    | Some _ => w1
                    | None => with_files (delete path (files w1)) w1
                    end))
          end
        else failed (u "Simulator screenshot failed: " ++ err) w1
      else timed_out writes
  | RunsGarbled dur rc reason writes =>
      if finishes_within dur 10 then
        failed reason (after_capture (Exited rc) writes cmd w)
      else timed_out writes
  end.
Proof.
  intros path cmd failed timed_out.
  unfold handle_screenshot_request, try_except.
  unfold bind at 1. unfold datetime_now at 1. cbv iota.
  fold (temp_filename_at (wall_clock E (ticks w))). fold path. fold cmd.
  unfold bind at 1. unfold subprocess_run.
  cbn [files procs with_ticks].
  destruct (exec E cmd) as [msg|dur rc out err writes|dur rc reason writes].
  - rewrite answer_error. reflexivity.
  - destruct (finishes_within dur 10); [|rewrite answer_error; reflexivity].
    cbn [cp_returncode cp_stderr].
    destruct (rc =? 0)%Z; cbn [negb].
    2:{ unfold bind at 1, raise at 1. cbv iota.
        rewrite answer_error. reflexivity. }
    unfold bind at 1. unfold ret at 1.
    unfold bind at 1. unfold read_binary at 1.
    cbn [files with_files with_procs with_ticks].
    destruct (apply_writes writes (files w) !! path) as [data|] eqn:Hfile.
    2:{ rewrite answer_error. reflexivity. }
    unfold bind at 1. unfold os_remove.
    cbn [files with_files with_procs with_ticks]. rewrite Hfile.
    destruct (fs_fault E (OpRemove path)) as [msg|]; unfold ret;
      unfold bind at 1; unfold datetime_now at 1;
      cbn [ticks with_files with_procs with_ticks];
      rewrite send_json, success_body; reflexivity.
  - destruct (finishes_within dur 10); rewrite answer_error; reflexivity.
Qed.

Section RoundTrip.
Import Base64.


End RoundTrip.


(** C4 (amended). When the capture command exits with a non-zero code,
    [GET /screenshot] returns normally, having answered 500 with the
    body [{"success": false, "error": ...}].  If the command's output
    decodes as text, the error is ["Simulator screenshot failed: "]
    followed by its stderr, which stands in the body as it is when it
    needs no escaping; if the output does not decode, the error is the
    text of the decoding error instead. *)
Theorem screenshot_command_failure E w dur rc writes :
  let cmd := capture_command (temp_filename_at (wall_clock E (ticks w))) in
  finishes_within dur 10 = true ->
  rc <> 0%Z ->
  let r := do_GET E (u "/screenshot") w in
  (forall out err,
     exec E cmd = Runs dur rc out err writes ->
     fst r = Val tt
     /\ wire (snd r)
        = wire w
          ++ json_response 500
               (error_line (u "Simulator screenshot failed: " ++ err))
     /\ status_of (drop (length (wire w)) (wire (snd r))) = Some 500
     /\ (Forall unescaped err ->
         error_line (u "Simulator screenshot failed: " ++ err)
         = ascii_bytes
             ([123; 34] ++ u "success" ++ [34] ++ u ": false, "
              ++ [34] ++ u "error" ++ [34] ++ u ": "
              ++ [34] ++ u "Simulator screenshot failed: " ++ err
              ++ [34; 125])))
  /\ (forall reason,
        exec E cmd = RunsGarbled dur rc reason writes ->
        fst r = Val tt
        /\ wire (snd r) = wire w ++ json_response 500 (error_line reason)
        /\ status_of (drop (length (wire w)) (wire (snd r))) = Some 500).
Proof.
  intros cmd Htime Hrc r. apply Z.eqb_neq in Hrc.
  assert (Hr : r = handle_screenshot_request E w).
  { subst r. unfold do_GET. now rewrite decide_True by reflexivity. }
  clearbody r. rewrite screenshot_run in Hr. fold cmd in Hr. split.
  - intros out err Hexec. rewrite Hexec, Htime, Hrc in Hr. subst r.
    cbn [fst snd answered wire with_wire with_ticks with_files with_procs
         after_capture].
    split; [reflexivity|]. split; [reflexivity|].
    split; [now rewrite drop_app_length|].
    intros Hplain. unfold error_line. f_equal.
    rewrite json_string_unescaped.
    + unfold dquote. rewrite <- !app_assoc. reflexivity.
    + apply Forall_app. split; [apply unescaped_check; reflexivity|].
      exact Hplain.
  - intros reason Hexec. rewrite Hexec, Htime in Hr. subst r.
    cbn [fst snd answered wire with_wire with_ticks with_files with_procs
         after_capture].
    split; [reflexivity|]. split; [reflexivity|].
    now rewrite drop_app_length.
Qed.

(** C6 (amended). A GET for a path other than [/screenshot], [/health]
    and [/hello] is answered with [send_error(404)], and nothing else
    happens but the two clock readings of its log lines; [/hello] is
    answered with 200 and a JSON greeting. *)
Theorem unknown_path_404 E path w :
  path <> u "/screenshot" -> path <> u "/health" -> path <> u "/hello" ->
  do_GET E path w
  = (Val tt,
     with_wire (wire w ++ [SendError 404 (u "Not Found")])
               (with_ticks (S (S (ticks w))) w))
  /\ status_of (drop (length (wire w)) (wire (snd (do_GET E path w))))
     = Some 404
  /\ do_GET E (u "/hello") w
     = (Val tt,
        with_wire
          (wire w
           ++ json_response 200
                (ascii_bytes
                   (json_dumps E
                      (PDict [(u "message", PStr (u "Hello from Mac!"))]))))
          (with_ticks (S (ticks w)) w)).
Proof.
  intros H1 H2 H3.
  assert (Hrun : do_GET E path w
                 = (Val tt,
                    with_wire (wire w ++ [SendError 404 (u "Not Found")])
                              (with_ticks (S (S (ticks w))) w))).
  { unfold do_GET. rewrite !decide_False by assumption. reflexivity. }
  split; [exact Hrun|]. split.
  - rewrite Hrun. cbn [snd wire with_wire]. now rewrite drop_app_length.
  - unfold do_GET.
    rewrite !decide_False by (intros H; vm_compute in H; discriminate).
    rewrite decide_True by reflexivity.
    unfold handle_hello_request. apply send_json.
Qed.

(** ** The tool-call handler *)

(** C2. For a name other than [show_popup] and [log_activity] the handler
    returns the one text ["Unknown tool: <name>"] and leaves the world as
    it was: no process is started and no file is written. *)
Theorem unknown_tool E name arguments w :
  name <> u "show_popup" -> name <> u "log_activity" ->
  handle_call_tool E name arguments w
  = (Val (text_content (u "Unknown tool: " ++ name)), w).
Proof.
  intros H1 H2. unfold handle_call_tool.
  rewrite !decide_False by assumption. reflexivity.
Qed.

(** What a [show_popup] call does, by what the alert command does. *)
Lemma show_popup_run E arguments w :
  let title := popup_title arguments in
  let message := popup_message arguments in
  let cmd := alert_command E title message (popup_severity arguments) in
  handle_call_tool E (u "show_popup") arguments w =
  match exec E cmd with
  | CannotStart msg =>
      (Val (text_content (u "Error displaying popup: " ++ msg)), w)
  | Runs dur rc out err writes =>
      if finishes_within dur 15 then
        (Val (text_content
                (if (rc =? 0)%Z then
                   u "Popup displayed successfully: '" ++ py_str E title
                   ++ u "' - '" ++ py_str E message ++ u "'"
                 else u "Failed to display popup: " ++ err)),
         after_run (Exited rc) writes cmd w)
      else
        (Val (text_content (u "Popup display timed out")),
         after_run Killed writes cmd w)
  | RunsGarbled dur rc reason writes =>
      if finishes_within dur 15 then
        (Val (text_content (u "Error displaying popup: " ++ reason)),
         after_run (Exited rc) writes cmd w)
      else
        (Val (text_content (u "Popup display timed out")),
         after_run Killed writes cmd w)
  end.
Proof.
  intros title message cmd. unfold handle_call_tool.
  rewrite decide_True by reflexivity.
  unfold try_except, bind, subprocess_run.
  fold (popup_title arguments) (popup_message arguments)
       (popup_severity arguments).
  fold title message.
  change [u "osascript"; u "-e";
          applescript_of E title message (popup_severity arguments)]
    with cmd.
  destruct (exec E cmd) as [msg|dur rc out err writes|dur rc reason writes];
    [reflexivity| |].
  - destruct (finishes_within dur 15); [|reflexivity].
    cbn [cp_returncode cp_stderr]. destruct (rc =? 0)%Z; reflexivity.
  - destruct (finishes_within dur 15); reflexivity.
Qed.

Lemma with_dirs_same w : with_dirs (dirs w) w = w.
Proof. now destruct w. Qed.

(** What [os.makedirs] does: it adds directories of the lineage that the
    system lets it make, and fails only on one that is refused. *)
Lemma makedirs_lineage_spec E lineage w :
  exists ds,
    (makedirs_lineage E lineage w = (Val tt, with_dirs ds w)
     /\ (forall name rest, lineage = name :: rest -> name ∈ ds)
     \/ exists msg d,
          d ∈ lineage /\ fs_fault E (OpMkdir d) = Some msg
          /\ makedirs_lineage E lineage w = (Exc (OSError msg), with_dirs ds w))
    /\ dirs w ⊆ ds
    /\ (forall d, d ∈ ds ->
          d ∈ dirs w \/ (d ∈ lineage /\ fs_fault E (OpMkdir d) = None)).
Proof.
  revert w. induction lineage as [|name ancestors IH]; intros w.
  - exists (dirs w). split; [left|split; [set_solver|auto]].
    split; [now rewrite with_dirs_same | discriminate].
  - cbn [makedirs_lineage]. unfold bind.
    assert (Hanc : exists ds1,
              ((match ancestors with
                | [] => ret tt
                | head :: _ =>
                    fun w => if decide (head ∈ dirs w) then (Val tt, w)
                             else makedirs_lineage E ancestors w
                end) w = (Val tt, with_dirs ds1 w)
               \/ exists msg d,
                    d ∈ ancestors /\ fs_fault E (OpMkdir d) = Some msg
                    /\ (match ancestors with
                        | [] => ret tt
                        | head :: _ =>
                            fun w => if decide (head ∈ dirs w) then (Val tt, w)
                                     else makedirs_lineage E ancestors w
                        end) w = (Exc (OSError msg), with_dirs ds1 w))
              /\ dirs w ⊆ ds1
              /\ (forall d, d ∈ ds1 ->
                    d ∈ dirs w
                    \/ (d ∈ ancestors /\ fs_fault E (OpMkdir d) = None))).
    { destruct ancestors as [|head rest].
      - exists (dirs w). split; [left; unfold ret; now rewrite with_dirs_same|].
        split; [set_solver|auto].
      - destruct (decide (head ∈ dirs w)).
        + exists (dirs w). split; [left; now rewrite with_dirs_same|].
          split; [set_solver|auto].
        + destruct (IH w) as (ds1 & Hres & Hsub & Hnew). exists ds1.
          split; [|split; assumption].
          destruct Hres as [[Hres _]|Hres]; [now left | now right]. }
    destruct Hanc as (ds1 & Hres & Hsub & Hnew).
    destruct Hres as [Hres|(msg & d & Hd & Hfault & Hres)]; rewrite Hres.
    2:{ exists ds1. split; [right; exists msg, d|split; [assumption|]].
        - split; [now apply list_elem_of_further|]. split; [assumption|].
          reflexivity.
        - intros d' Hd'. destruct (Hnew d' Hd') as [?|[? ?]]; [now left|].
          right. split; [now apply list_elem_of_further | assumption]. }
    unfold mkdir_exist_ok. cbn [dirs with_dirs].
    destruct (decide (name ∈ ds1)) as [Hin|Hout].
    + exists ds1. split; [left|split; [assumption|]].
      * split; [reflexivity|]. intros ? ? [= <- _]. exact Hin.
      * intros d' Hd'. destruct (Hnew d' Hd') as [?|[? ?]]; [now left|].
        right. split; [now apply list_elem_of_further | assumption].
    + destruct (fs_fault E (OpMkdir name)) as [msg|] eqn:Hfault.
      * exists ds1. split; [right; exists msg, name|split; [assumption|]].
        -- split; [apply list_elem_of_here|]. split; [assumption|reflexivity].
        -- intros d' Hd'. destruct (Hnew d' Hd') as [?|[? ?]]; [now left|].
           right. split; [now apply list_elem_of_further | assumption].
      * exists ({[name]} ∪ ds1). split; [left|split; [set_solver|]].
        -- split; [reflexivity|]. intros ? ? [= <- _]. set_solver.
        -- intros d' Hd'. apply elem_of_union in Hd' as [Hd'|Hd'].
           ++ apply elem_of_singleton in Hd'. subst d'. right.
              split; [apply list_elem_of_here | assumption].
           ++ destruct (Hnew d' Hd') as [?|[? ?]]; [now left|].
              right. split; [now apply list_elem_of_further | assumption].
Qed.

Lemma elem_of_rev_chain (d : pystr) l : d ∈ rev l -> d ∈ l.
Proof. rewrite !list_elem_of_In. apply in_rev. Qed.

(** What [os.makedirs] does for the log directory: [made] tells whether
    it succeeded, and the directories it has added are missing ones of
    the chain that the system let it make. *)
Lemma os_makedirs_spec E path w :
  exists ds (refused : option pystr),
    os_makedirs E path w
    = (match refused with
       | Some msg => Exc (OSError msg)
       | None => Val tt
       end, with_dirs ds w)
    /\ dirs w ⊆ ds
    /\ (forall d, d ∈ ds ->
          d ∈ dirs w \/ (d ∈ dir_chain path /\ fs_fault E (OpMkdir d) = None))
    /\ (forall msg, refused = Some msg ->
          exists d, d ∈ dir_chain path /\ fs_fault E (OpMkdir d) = Some msg)
    /\ (refused = None -> forall name rest,
          rev (dir_chain path) = name :: rest -> name ∈ ds).
Proof.
  unfold os_makedirs.
  destruct (makedirs_lineage_spec E (rev (dir_chain path)) w)
    as (ds & Hres & Hsub & Hnew).
  assert (Hnew' : forall d, d ∈ ds ->
            d ∈ dirs w
            \/ (d ∈ dir_chain path /\ fs_fault E (OpMkdir d) = None)).
  { intros d Hd. destruct (Hnew d Hd) as [?|[? ?]]; [now left|].
    right. split; [now apply elem_of_rev_chain | assumption]. }
  destruct Hres as [[Hres Hleaf]|(msg & d & Hd & Hfault & Hres)].
  - exists ds, None. rewrite Hres. repeat split; try assumption.
    + discriminate.
    + intros _. exact Hleaf.
  - exists ds, (Some msg). rewrite Hres. repeat split; try assumption.
    + intros msg' [= <-]. exists d. split; [now apply elem_of_rev_chain|].
      assumption.
    + discriminate.
Qed.

(** The JSON text of a log record, key by key. *)
Lemma log_entry_text E now arguments :
  json_dumps E (log_entry_of now arguments)
  = record_text (json_float E now)
      (json_dumps E (supplied_or arguments (u "activity")
                       (PStr (u "Unknown activity"))))
      (json_dumps E (supplied_or arguments (u "productive") (PBool false)))
      (json_dumps E (supplied_or arguments (u "app_name")
                       (PStr (u "Unknown app")))).
Proof.
  unfold log_entry_of, make_log_entry, record_text, dict_get, supplied_or.
  destruct (arguments !! u "activity"), (arguments !! u "productive"),
    (arguments !! u "app_name");
    cbn [json_dumps map join fst snd default];
    rewrite <- !app_assoc; reflexivity.
Qed.

(** What a [log_activity] call does, by the operation that is refused. *)
Lemma log_activity_run E arguments w :
  let now := loop_time E (loop_reads w) in
  let path := log_path E in
  let line := log_line E now arguments in
  let fail := fun msg => text_content (u "Failed to log activity: " ++ msg) in
  exists ds (refused : option pystr),
    let w1 := with_dirs ds (with_loop_reads (S (loop_reads w)) w) in
    dirs w ⊆ ds
    /\ (forall d, d ∈ ds ->
          d ∈ dirs w
          \/ (d ∈ dir_chain (log_dir E) /\ fs_fault E (OpMkdir d) = None))
    /\ (forall msg, refused = Some msg ->
          exists d, d ∈ dir_chain (log_dir E)
                    /\ fs_fault E (OpMkdir d) = Some msg)
    /\ (refused = None -> forall name rest,
          rev (dir_chain (log_dir E)) = name :: rest -> name ∈ ds)
    /\ handle_call_tool E (u "log_activity") arguments w =
       match refused with
       | Some msg => (Val (fail msg), w1)
       | None =>
           match fs_fault E (OpOpenAppend path) with
           | Some msg => (Val (fail msg), w1)
           | None =>
               match fs_fault E (OpWrite path) with
               | Some msg =>
                   (Val (fail msg),
                    with_files (<[path := content w path]> (files w)) w1)
               | None =>
                   (Val (text_content (logged_text E arguments)),
                    with_files (<[path := content w path ++ line]> (files w))
                               w1)
               end
           end
       end.
Proof.
  intros now path line fail.
  destruct (os_makedirs_spec E (log_dir E)
              (with_loop_reads (S (loop_reads w)) w))
    as (ds & refused & Hmk & Hsub & Hnew & Hwhy & Hleaf).
  exists ds, refused. cbv zeta.
  split; [exact Hsub|]. split; [exact Hnew|]. split; [exact Hwhy|].
  split; [exact Hleaf|].
  unfold handle_call_tool.
  rewrite decide_False by (intros H; vm_compute in H; discriminate).
  rewrite decide_True by reflexivity.
  unfold bind at 1. unfold event_loop_time. cbv iota.
  fold now. fold (log_entry_of now arguments). fold (logged_text E arguments).
  fold (log_dir E). fold (log_path E). fold path.
  unfold try_except, bind at 1. rewrite Hmk.
  destruct refused as [msg|]; [reflexivity|].
  unfold bind at 1, open_append. cbn [files with_dirs with_loop_reads].
  destruct (fs_fault E (OpOpenAppend path)) as [msg|]; [reflexivity|].
  unfold bind at 1, file_write, bind, str_encode.
  assert (Henc : utf8_from 0 (json_dumps E (log_entry_of now arguments)
                              ++ newline)
                 = Val line).
  { rewrite utf8_from_ascii.
    - unfold ascii_bytes, line, log_line. now rewrite map_app.
    - apply Forall_app. split.
      + apply printable_7bit, json_dumps_printable.
      + repeat constructor. }
  rewrite Henc. cbn [files with_files with_dirs with_loop_reads].
  destruct (fs_fault E (OpWrite path)) as [msg|]; [reflexivity|].
  unfold ret. f_equal. unfold with_files. cbn.
  rewrite lookup_insert_eq, insert_insert_eq. reflexivity.
Qed.

Lemma one_text_inj a b : Val (one_text a) = Val (one_text b) -> a = b.
Proof. intros H. now inversion H. Qed.

(** C7 (amended). A [show_popup] call has exactly one of four answers,
    decided by the alert command: ["Error displaying popup: ..."] when it
    cannot be started, with no process left, or when its output does not
    decode as text; ["Popup display timed out"] when it is not done
    within 15 seconds, the process being killed; ["Failed to display
    popup: "] followed by its stderr when it exits non-zero; the
    confirmation when it exits 0.  The four answers are different texts
    whatever they quote. *)
Theorem show_popup_outcomes E arguments w :
  let title := popup_title arguments in
  let message := popup_message arguments in
  let cmd := alert_command E title message (popup_severity arguments) in
  let r := handle_call_tool E (u "show_popup") arguments w in
  let error := fun msg => one_text (u "Error displaying popup: " ++ msg) in
  let timed_out := one_text (u "Popup display timed out") in
  let failed := fun err => one_text (u "Failed to display popup: " ++ err) in
  let shown :=
    one_text (u "Popup displayed successfully: '" ++ py_str E title
              ++ u "' - '" ++ py_str E message ++ u "'") in
  let ran := fun status =>
    procs w ++ [{| proc_argv := cmd; proc_status_of := status |}] in
  match exec E cmd with
  | CannotStart msg => fst r = Val (error msg) /\ procs (snd r) = procs w
  | Runs dur rc out err writes =>
      if finishes_within dur 15 then
        fst r = Val (if (rc =? 0)%Z then shown else failed err)
        /\ procs (snd r) = ran (Exited rc)
      else fst r = Val timed_out /\ procs (snd r) = ran Killed
  | RunsGarbled dur rc reason writes =>
      if finishes_within dur 15 then
        fst r = Val (error reason) /\ procs (snd r) = ran (Exited rc)
      else fst r = Val timed_out /\ procs (snd r) = ran Killed
  end
  /\ (forall msg err,
        error msg <> timed_out /\ error msg <> failed err
        /\ error msg <> shown /\ timed_out <> failed err
        /\ timed_out <> shown /\ failed err <> shown).
Proof.
  intros title message cmd r error timed_out failed shown ran. split.
  - subst r. rewrite show_popup_run. fold title message cmd.
    destruct (exec E cmd) as [msg|dur rc out err writes|dur rc reason writes].
    + now split.
    + destruct (finishes_within dur 15); [|now split].
      destruct (rc =? 0)%Z; now split.
    + destruct (finishes_within dur 15); now split.
  - intros msg err.
    assert (Hdiff : forall a b : pystr,
              (hd 0 a <> hd 0 b \/ nth 13 a 0 <> nth 13 b 0) ->
              one_text a <> one_text b).
    { intros a b Hab H. inversion H. subst. destruct Hab as [Hab|Hab];
        now apply Hab. }
    repeat split; apply Hdiff;
      first [left; discriminate | right; discriminate].
Qed.

(** C5 (amended). The AppleScript handed to [osascript] carries the
    [severity] argument exactly as supplied, after ["as "], whether or not
    it is one of [info], [warning], [critical]; the default [warning] is
    written only when the argument is absent. *)
Theorem show_popup_severity_verbatim E arguments w :
  let severity := supplied_or arguments (u "severity") (PStr (u "warning")) in
  let cmd :=
    [u "osascript"; u "-e";
     alert_script (py_str E (popup_title arguments))
                  (py_str E (popup_message arguments))
                  (py_str E severity)] in
  let r := handle_call_tool E (u "show_popup") arguments w in
  match exec E cmd with
  | CannotStart _ => procs (snd r) = procs w
  | Runs dur rc _ _ _ | RunsGarbled dur rc _ _ =>
      procs (snd r)
      = procs w
        ++ [{| proc_argv := cmd;
               proc_status_of := if finishes_within dur 15 then Exited rc
                                 else Killed |}]
  end
  /\ (forall s, arguments !! u "severity" = Some (PStr s) ->
                py_str E severity = s)
  /\ (arguments !! u "severity" = None -> py_str E severity = u "warning").
Proof.
  intros severity cmd r. split; [|split].
  - subst r. rewrite show_popup_run.
    change (alert_command E (popup_title arguments) (popup_message arguments)
              (popup_severity arguments)) with cmd.
    destruct (exec E cmd) as [msg|dur rc out err writes|dur rc reason writes];
      [reflexivity| |]; destruct (finishes_within dur 15); reflexivity.
  - intros s Hs. unfold severity, supplied_or. now rewrite Hs.
  - intros Hs. unfold severity, supplied_or. now rewrite Hs.
Qed.

(** The last directory [os.makedirs] makes is the path itself, when the
    path does not end with a slash. *)
Lemma dir_chain_from_last acc rest c :
  last (acc ++ rest) = Some c -> c <> 47 ->
  exists init, dir_chain_from acc rest = init ++ [acc ++ rest].
Proof.
  revert acc. induction rest as [|x rest IH]; intros acc Hlast Hc.
  - rewrite app_nil_r in *. cbn [dir_chain_from]. rewrite Hlast.
    destruct (N.eqb_spec c 47); [contradiction|]. now exists [].
  - cbn [dir_chain_from].
    destruct (IH (acc ++ [x])) as (init & Hinit).
    { now rewrite <- app_assoc. }
    { exact Hc. }
    rewrite Hinit, <- app_assoc. cbn [app].
    eexists. rewrite app_assoc. reflexivity.
Qed.

Lemma log_dir_is_made_last E :
  exists rest, rev (dir_chain (log_dir E)) = log_dir E :: rest.
Proof.
  unfold dir_chain.
  destruct (dir_chain_from_last [] (log_dir E) 120) as (init & Hinit).
  - unfold log_dir, expanduser.
    change (u "~/Library/Logs/Cortex")
      with (126 :: 47 :: u "Library/Logs/Corte" ++ [120]).
    cbv iota. cbn [app].
    rewrite (app_comm_cons _ _ 47), app_assoc. apply last_snoc.
  - discriminate.
  - rewrite Hinit, rev_app_distr. cbn. eauto.
Qed.

Lemma failed_is_not_logged E arguments msg :
  Val (text_content (u "Failed to log activity: " ++ msg))
  <> Val (one_text (logged_text E arguments)).
Proof.
  intros H. apply one_text_inj in H. apply (f_equal (hd 0)) in H.
  discriminate.
Qed.


(** C10. The line appended by a successful [log_activity] call always has
    the four keys; after ["app_name": ] it has ["Unknown app"] when that
    argument is omitted, and after ["productive": ] it has [false] when
    that one is. *)
Theorem log_activity_defaults E arguments w :
  let r := handle_call_tool E (u "log_activity") arguments w in
  let path := log_path E in
  fst r = Val (one_text (logged_text E arguments)) ->
  content (snd r) path
  = content w path
    ++ ascii_bytes
         (record_text
            (json_float E (loop_time E (loop_reads w)))
            (json_dumps E (supplied_or arguments (u "activity")
                             (PStr (u "Unknown activity"))))
            (match arguments !! u "productive" with
             | Some v => json_dumps E v
             | None => u "false"
             end)
            (match arguments !! u "app_name" with
             | Some v => json_dumps E v
             | None => [34] ++ u "Unknown app" ++ [34]
             end))
    ++ [x0a].
Proof.
  intros r path.
  destruct (log_activity_run E arguments w)
    as (ds & refused & Hsub & Hnew & Hwhy & Hleaf & Hrun).
  cbv zeta in Hrun. fold path in Hrun.
  assert (Hr : r = handle_call_tool E (u "log_activity") arguments w)
    by reflexivity.
  clearbody r. rewrite Hrun in Hr. clear Hrun. subst r.
  destruct refused as [msg|];
    [intros H; now apply failed_is_not_logged in H|].
  destruct (fs_fault E (OpOpenAppend path)) as [msg|];
    [intros H; now apply failed_is_not_logged in H|].
  destruct (fs_fault E (OpWrite path)) as [msg|];
    [intros H; now apply failed_is_not_logged in H|].
  intros _. cbn [snd]. unfold content at 1. cbn [files with_files].
  rewrite lookup_insert_eq. cbn [default]. do 2 f_equal.
  unfold log_line. rewrite log_entry_text. unfold supplied_or.
  destruct (arguments !! u "productive"), (arguments !! u "app_name");
    reflexivity.
Qed.

Lemma dict_get_insert_default (arguments : gmap pystr pyval) key dflt k d :
  arguments !! key = None -> (k = key -> d = dflt) ->
  dict_get (<[key := dflt]> arguments) k d = dict_get arguments k d.
Proof.
  intros Hnone Hd. unfold dict_get. destruct (decide (k = key)) as [->|Hne].
  - rewrite lookup_insert_eq, Hnone. cbn. symmetry. now apply Hd.
  - now rewrite lookup_insert_ne by congruence.
Qed.

Ltac same_or_other :=
  intros Heq; first [reflexivity | vm_compute in Heq; discriminate].

(** A machine that refuses nothing lets [os.makedirs] through. *)
Lemma log_activity_unrefused E arguments w :
  refuses_nothing E ->
  handle_call_tool E (u "log_activity") arguments w
  = (Val (text_content (logged_text E arguments)),
     with_files
       (<[log_path E :=
            content w (log_path E)
            ++ log_line E (loop_time E (loop_reads w)) arguments]> (files w))
       (with_dirs (dirs (snd (handle_call_tool E (u "log_activity")
                                 arguments w)))
                  (with_loop_reads (S (loop_reads w)) w))).
Proof.
  intros Hfree.
  destruct (log_activity_run E arguments w)
    as (ds & refused & _ & _ & Hwhy & _ & Hrun).
  cbv zeta in Hrun.
  destruct refused as [msg|].
  { destruct (Hwhy msg eq_refl) as (d & _ & Hd).
    rewrite Hfree in Hd. discriminate. }
  rewrite !Hfree in Hrun. rewrite Hrun. reflexivity.
Qed.

(** C1 (amended). When a required parameter is absent, the handler takes
    the default of its [arguments.get] call and proceeds exactly as if that
    value had been supplied.  [show_popup] hands [osascript] the alert
    script written with the default title or message, and answers with one
    of its four texts, the confirmation when the command exits 0 in time.
    [log_activity] starts no process and answers with its confirmation or
    with a file-system failure text; on a machine that refuses no file
    operation it answers with the confirmation and appends the record,
    written with ["Unknown activity"] or [false] for the absent value. *)
Theorem missing_required_uses_default E name key arguments w :
  key ∈ required_params name ->
  arguments !! key = None ->
  exists dflt,
    let r := handle_call_tool E name arguments w in
    get_default name key = Some dflt
    /\ r = handle_call_tool E name (<[key := dflt]> arguments) w
    /\ (name = u "show_popup" ->
        let title :=
          supplied_or arguments (u "title") (PStr (u "Productivity Alert")) in
        let message :=
          supplied_or arguments (u "message")
            (PStr (u "Please return to your productive work")) in
        let severity :=
          supplied_or arguments (u "severity") (PStr (u "warning")) in
        let cmd :=
          [u "osascript"; u "-e";
           alert_script (py_str E title) (py_str E message)
                        (py_str E severity)] in
        let ran := fun dur rc =>
          procs w
          ++ [{| proc_argv := cmd;
                 proc_status_of := if finishes_within dur 15 then Exited rc
                                   else Killed |}] in
        (key = u "title" -> py_str E title = u "Productivity Alert")
        /\ (key = u "message" ->
            py_str E message = u "Please return to your productive work")
        /\ match exec E cmd with
           | CannotStart msg =>
               fst r = Val (one_text (u "Error displaying popup: " ++ msg))
               /\ procs (snd r) = procs w
           | Runs dur rc out err _ =>
               fst r
               = Val (one_text
                        (if finishes_within dur 15 then
                           if (rc =? 0)%Z then
                             u "Popup displayed successfully: '"
                             ++ py_str E title ++ u "' - '"
                             ++ py_str E message ++ u "'"
                           else u "Failed to display popup: " ++ err
                         else u "Popup display timed out"))
               /\ procs (snd r) = ran dur rc
           | RunsGarbled dur rc reason _ =>
               fst r
               = Val (one_text
                        (if finishes_within dur 15 then
                           u "Error displaying popup: " ++ reason
                         else u "Popup display timed out"))
               /\ procs (snd r) = ran dur rc
           end)
    /\ (name = u "log_activity" ->
        let activity :=
          supplied_or arguments (u "activity") (PStr (u "Unknown activity")) in
        let productive :=
          supplied_or arguments (u "productive") (PBool false) in
        let app_name :=
          supplied_or arguments (u "app_name") (PStr (u "Unknown app")) in
        let confirmation :=
          u "Activity logged: " ++ py_str E activity ++ u " ("
          ++ (if py_truthy productive then u "productive"
              else u "unproductive")
          ++ u ") in " ++ py_str E app_name in
        let record :=
          record_text (json_float E (loop_time E (loop_reads w)))
            (json_dumps E activity) (json_dumps E productive)
            (json_dumps E app_name) in
        (key = u "activity" ->
         py_str E activity = u "Unknown activity"
         /\ json_dumps E activity = [34] ++ u "Unknown activity" ++ [34])
        /\ (key = u "productive" ->
            py_truthy productive = false
            /\ json_dumps E productive = u "false")
        /\ procs (snd r) = procs w
        /\ (exists text,
              fst r = Val (one_text text)
              /\ (text = confirmation
                  \/ exists msg, text = u "Failed to log activity: " ++ msg))
        /\ (refuses_nothing E ->
            fst r = Val (one_text confirmation)
            /\ content (snd r) (log_path E)
               = content w (log_path E) ++ ascii_bytes record ++ [x0a])).
Proof.
  intros Hreq Hnone. unfold required_params in Hreq.
  destruct (decide (name = u "show_popup")) as [->|Hn1].
  - assert (Hk : key = u "title" \/ key = u "message").
    { rewrite !elem_of_cons, elem_of_nil in Hreq. tauto. }
    assert (Hsame : forall dflt,
              get_default (u "show_popup") key = Some dflt ->
              handle_call_tool E (u "show_popup") arguments w
              = handle_call_tool E (u "show_popup")
                  (<[key := dflt]> arguments) w).
    { intros dflt Hd. rewrite !show_popup_run.
      unfold popup_title, popup_message, popup_severity.
      destruct Hk as [-> | ->]; vm_compute in Hd;
        injection Hd as <-;
        rewrite !(dict_get_insert_default _ _ _ _ _ Hnone) by same_or_other;
        reflexivity. }
    assert (Hd : exists dflt, get_default (u "show_popup") key = Some dflt).
    { destruct Hk as [-> | ->]; eexists; reflexivity. }
    destruct Hd as (dflt & Hd). exists dflt. cbv zeta.
    split; [exact Hd|]. split; [now apply Hsame|].
    split; [|intros H; vm_compute in H; discriminate].
    intros _. split; [|split].
    + intros ->. unfold supplied_or. now rewrite Hnone.
    + intros ->. unfold supplied_or. now rewrite Hnone.
    + rewrite show_popup_run.
      set (title := supplied_or arguments (u "title") _).
      set (message := supplied_or arguments (u "message") _).
      set (severity := supplied_or arguments (u "severity") _).
      change (popup_title arguments) with title.
      change (popup_message arguments) with message.
      change (popup_severity arguments) with severity.
      change (alert_command E title message severity)
        with [u "osascript"; u "-e";
              alert_script (py_str E title) (py_str E message)
                           (py_str E severity)].
      destruct (exec E _) as [msg|dur rc out err writes|dur rc reason writes].
      * now split.
      * destruct (finishes_within dur 15); [|now split].
        destruct (rc =? 0)%Z; now split.
      * destruct (finishes_within dur 15); now split.
  - destruct (decide (name = u "log_activity")) as [->|Hn2];
      [|now apply elem_of_nil in Hreq].
    assert (Hk : key = u "activity" \/ key = u "productive").
    { rewrite !elem_of_cons, elem_of_nil in Hreq. tauto. }
    assert (Hsame : forall dflt,
              get_default (u "log_activity") key = Some dflt ->
              handle_call_tool E (u "log_activity") arguments w
              = handle_call_tool E (u "log_activity")
                  (<[key := dflt]> arguments) w).
    { intros dflt Hd. unfold handle_call_tool.
      destruct Hk as [-> | ->]; vm_compute in Hd;
        injection Hd as <-;
        rewrite !(dict_get_insert_default _ _ _ _ _ Hnone) by same_or_other;
        reflexivity. }
    assert (Hd : exists dflt, get_default (u "log_activity") key = Some dflt).
    { destruct Hk as [-> | ->]; eexists; reflexivity. }
    destruct Hd as (dflt & Hd). exists dflt. cbv zeta.
    split; [exact Hd|]. split; [now apply Hsame|].
    split; [intros H; vm_compute in H; discriminate|].
    intros _.
    assert (Hconf : logged_text E arguments
                    = u "Activity logged: "
                      ++ py_str E (supplied_or arguments (u "activity")
                                     (PStr (u "Unknown activity")))
                      ++ u " ("
                      ++ (if py_truthy (supplied_or arguments (u "productive")
                                          (PBool false))
                          then u "productive" else u "unproductive")
                      ++ u ") in "
                      ++ py_str E (supplied_or arguments (u "app_name")
                                     (PStr (u "Unknown app")))).
    { reflexivity. }
    rewrite <- Hconf.
    split; [|split; [|split; [|split]]].
    + intros ->. unfold supplied_or. rewrite Hnone. now split.
    + intros ->. unfold supplied_or. rewrite Hnone. now split.
    + destruct (log_activity_run E arguments w)
        as (ds & refused & _ & _ & _ & _ & Hrun).
      cbv zeta in Hrun. rewrite Hrun.
      destruct refused; [reflexivity|].
      destruct (fs_fault E (OpOpenAppend (log_path E))); [reflexivity|].
      destruct (fs_fault E (OpWrite (log_path E))); reflexivity.
    + destruct (log_activity_run E arguments w)
        as (ds & refused & _ & _ & _ & _ & Hrun).
      cbv zeta in Hrun. rewrite Hrun.
      destruct refused; [eexists; split; [reflexivity|eauto]|].
      destruct (fs_fault E (OpOpenAppend (log_path E)));
        [eexists; split; [reflexivity|eauto]|].
      destruct (fs_fault E (OpWrite (log_path E)));
        eexists; (split; [reflexivity|eauto]).
    + intros Hfree. rewrite (log_activity_unrefused E arguments w Hfree).
      split; [reflexivity|]. cbn [snd]. unfold content at 1.
      cbn [files with_files]. rewrite lookup_insert_eq. cbn [default].
      unfold log_line. now rewrite log_entry_text.
Qed.

(** ** No exception leaves a handler *)

Lemma try_except_returns {A} (c : M A) (h : exn -> M A) w :
  (forall e w', exists a w'', h e w' = (Val a, w'')) ->
  exists a w'', try_except c h w = (Val a, w'').
Proof.
  intros Hh. unfold try_except.
  destruct (c w) as [[a|e] w']; [now exists a, w' | apply Hh].
Qed.

(** Every GET request is answered and [do_GET] returns: whatever the
    capture command, the file system and the clock do, no exception
    leaves the handler. *)
Theorem do_GET_returns E path w :
  exists w', do_GET E path w = (Val tt, w').
Proof.
  unfold do_GET.
  destruct (decide (path = u "/screenshot")) as [_|_].
  - unfold handle_screenshot_request.
    match goal with
    | |- exists w', try_except ?c ?h w = _ =>
        destruct (try_except_returns c h w) as ([] & w' & Hr)
    end.
    + intros e w'. rewrite send_json. eauto.
    + exists w'. exact Hr.
  - destruct (decide (path = u "/health")) as [_|_].
    + unfold handle_health_check. rewrite send_json. eauto.
    + destruct (decide (path = u "/hello")) as [_|_].
      * unfold handle_hello_request. rewrite send_json. eauto.
      * eexists. reflexivity.
Qed.

(** Every tool call is answered with one text: no exception leaves
    [handle_call_tool]. *)
Theorem handle_call_tool_returns E name arguments w :
  exists text w',
    handle_call_tool E name arguments w = (Val (one_text text), w').
Proof.
  destruct (decide (name = u "show_popup")) as [->|H1].
  - rewrite show_popup_run.
    destruct (exec E _) as [msg|dur rc out err writes|dur rc reason writes];
      [eexists _, _; reflexivity| |];
      destruct (finishes_within dur 15); eexists _, _; reflexivity.
  - destruct (decide (name = u "log_activity")) as [->|H2].
    + destruct (log_activity_run E arguments w)
        as (ds & refused & _ & _ & _ & _ & Hrun).
      cbv zeta in Hrun. rewrite Hrun.
      destruct refused; [eexists _, _; reflexivity|].
      destruct (fs_fault E (OpOpenAppend (log_path E)));
        [eexists _, _; reflexivity|].
      destruct (fs_fault E (OpWrite (log_path E)));
        eexists _, _; reflexivity.
    + unfold handle_call_tool. rewrite !decide_False by assumption.
      eexists _, _; reflexivity.
Qed.

(** ** Concrete runs *)

Lemma unknown_tool_witness :
  u "open_browser" <> u "show_popup"
  /\ u "open_browser" <> u "log_activity"
  /\ handle_call_tool Demo.healthy (u "open_browser") Demo.browsing Demo.boot
     = (Val (text_content (u "Unknown tool: " ++ u "open_browser")),
        Demo.boot).
Proof.
  assert (H1 : u "open_browser" <> u "show_popup")
    by (intros H; vm_compute in H; discriminate).
  assert (H2 : u "open_browser" <> u "log_activity")
    by (intros H; vm_compute in H; discriminate).
  split; [exact H1|]. split; [exact H2|].
  exact (unknown_tool Demo.healthy (u "open_browser") Demo.browsing Demo.boot
           H1 H2).
Defined.

Lemma unknown_path_404_witness :
  u "/favicon.ico" <> u "/screenshot"
  /\ u "/favicon.ico" <> u "/health"
  /\ u "/favicon.ico" <> u "/hello"
  /\ do_GET Demo.healthy (u "/favicon.ico") Demo.boot
     = (Val tt,
        with_wire (wire Demo.boot ++ [SendError 404 (u "Not Found")])
                  (with_ticks (S (S (ticks Demo.boot))) Demo.boot))
  /\ status_of (drop (length (wire Demo.boot))
                  (wire (snd (do_GET Demo.healthy (u "/favicon.ico")
                                Demo.boot))))
     = Some 404
  /\ do_GET Demo.healthy (u "/hello") Demo.boot
     = (Val tt,
        with_wire
          (wire Demo.boot
           ++ json_response 200
                (ascii_bytes
                   (json_dumps Demo.healthy
                      (PDict [(u "message", PStr (u "Hello from Mac!"))]))))
          (with_ticks (S (ticks Demo.boot)) Demo.boot)).
Proof.
  assert (H1 : u "/favicon.ico" <> u "/screenshot")
    by (intros H; vm_compute in H; discriminate).
  assert (H2 : u "/favicon.ico" <> u "/health")
    by (intros H; vm_compute in H; discriminate).
  assert (H3 : u "/favicon.ico" <> u "/hello")
    by (intros H; vm_compute in H; discriminate).
  repeat (split; [assumption|]).
  exact (unknown_path_404 Demo.healthy (u "/favicon.ico") Demo.boot H1 H2 H3).
Defined.

(** C6, as stated, fails: [/hello] is neither [/screenshot] nor [/health]
    and is answered with 200. *)
Lemma hello_is_not_404 :
  u "/hello" <> u "/screenshot"
  /\ u "/hello" <> u "/health"
  /\ status_of (wire (snd (do_GET Demo.healthy (u "/hello") Demo.boot)))
     = Some 200.
Proof.
  split; [intros H; vm_compute in H; discriminate|].
  split; [intros H; vm_compute in H; discriminate|].
  vm_compute. reflexivity.
Qed.



Lemma screenshot_command_failure_witness :
  let path := temp_filename_at Demo.noon in
  let r := do_GET Demo.no_simulator (u "/screenshot") Demo.boot in
  let err := u "No devices are booted." in
  finishes_within (Some 150) 10 = true
  /\ (2 <> 0)%Z
  /\ exec Demo.no_simulator (capture_command path)
     = Runs (Some 150) 2 [] err []
  /\ fst r = Val tt
  /\ wire (snd r)
     = wire Demo.boot
       ++ json_response 500
            (error_line (u "Simulator screenshot failed: " ++ err))
  /\ status_of (drop (length (wire Demo.boot)) (wire (snd r))) = Some 500
  /\ (Forall unescaped err ->
      error_line (u "Simulator screenshot failed: " ++ err)
      = ascii_bytes
          ([123; 34] ++ u "success" ++ [34] ++ u ": false, "
           ++ [34] ++ u "error" ++ [34] ++ u ": "
           ++ [34] ++ u "Simulator screenshot failed: " ++ err
           ++ [34; 125])).
Proof.
  intros path r err.
  assert (H1 : finishes_within (Some 150) 10 = true) by reflexivity.
  assert (H2 : (2 <> 0)%Z) by lia.
  assert (H3 : exec Demo.no_simulator (capture_command path)
               = Runs (Some 150) 2 [] err []) by reflexivity.
  repeat (split; [assumption|]).
  exact (proj1 (screenshot_command_failure Demo.no_simulator Demo.boot
                  (Some 150) 2 [] H1 H2) [] err H3).
Defined.

(** C4, as stated, fails: the command exits 2 and what it wrote to its
    stderr is not UTF-8 text; the answer is 500, but its error is the
    text of the decoding failure and quotes nothing of the stderr. *)
Lemma undecodable_stderr_is_not_quoted :
  let path := temp_filename_at Demo.noon in
  let r := do_GET Demo.garbled (u "/screenshot") Demo.boot in
  let reason :=
    u "'utf-8' codec can't decode byte 0xff in position 0: invalid start byte"
  in
  exec Demo.garbled (capture_command path) = RunsGarbled (Some 150) 2 reason []
  /\ finishes_within (Some 150) 10 = true
  /\ fst r = Val tt
  /\ wire (snd r)
     = json_response 500
         (ascii_bytes
            ([123; 34] ++ u "success" ++ [34] ++ u ": false, "
             ++ [34] ++ u "error" ++ [34] ++ u ": "
             ++ [34] ++ reason ++ [34; 125])).
Proof.
  split; [reflexivity|]. split; [reflexivity|].
  split; vm_compute; reflexivity.
Qed.

(** C1, as stated, fails: [title] is required and absent, yet the alert
    command is run and the answer is the confirmation. *)
Lemma missing_title_still_alerts :
  let r := handle_call_tool Demo.healthy (u "show_popup") ∅ Demo.boot in
  required_params (u "show_popup") = [u "title"; u "message"]
  /\ (∅ : gmap pystr pyval) !! u "title" = None
  /\ fst r
     = Val (one_text
              (u "Popup displayed successfully: 'Productivity Alert' - 'Please return to your productive work'"))
  /\ map proc_status_of (procs (snd r)) = [Exited 0]
  /\ procs (snd r) <> procs Demo.boot.
Proof.
  split; [reflexivity|]. split; [reflexivity|].
  split; [vm_compute; reflexivity|]. split; [vm_compute; reflexivity|].
  intros H. vm_compute in H. discriminate.
Qed.

Lemma missing_required_uses_default_witness :
  let r := handle_call_tool Demo.healthy (u "log_activity") ∅ Demo.boot in
  u "activity" ∈ required_params (u "log_activity")
  /\ (∅ : gmap pystr pyval) !! u "activity" = None
  /\ exists dflt,
       get_default (u "log_activity") (u "activity") = Some dflt
       /\ r = handle_call_tool Demo.healthy (u "log_activity")
                (<[u "activity" := dflt]> ∅) Demo.boot
       /\ procs (snd r) = procs Demo.boot.
Proof.
  intros r.
  assert (H1 : u "activity" ∈ required_params (u "log_activity"))
    by (apply list_elem_of_here).
  assert (H2 : (∅ : gmap pystr pyval) !! u "activity" = None) by reflexivity.
  repeat (split; [assumption|]).
  destruct (missing_required_uses_default Demo.healthy (u "log_activity")
              (u "activity") ∅ Demo.boot H1 H2)
    as (dflt & Hd & Hsame & _ & Hlog).
  exists dflt. split; [exact Hd|]. split; [exact Hsame|].
  exact (proj1 (proj2 (proj2 (Hlog eq_refl)))).
Defined.

(** C5, as stated, fails: [bogus] is outside the enumeration and the
    command is built with it, not with [warning]. *)
Lemma bogus_severity_is_passed_on :
  let r := handle_call_tool Demo.healthy (u "show_popup") Demo.bogus_alert
             Demo.boot in
  let script := alert_script (u "Focus") (u "Back to work") in
  Demo.bogus_alert !! u "severity" = Some (PStr (u "bogus"))
  /\ (PStr (u "bogus") ∉ severity_enum)
  /\ map proc_argv (procs (snd r))
     = [[u "osascript"; u "-e"; script (u "bogus")]]
  /\ script (u "bogus") <> script (u "warning").
Proof.
  split; [vm_compute; reflexivity|].
  split.
  { unfold severity_enum. rewrite !elem_of_cons, elem_of_nil.
    intros [H|[H|[H|[]]]]; vm_compute in H; discriminate. }
  split; [vm_compute; reflexivity|].
  intros H. vm_compute in H. discriminate.
Qed.

(** C7, as stated, fails: the alert command neither times out nor exits
    non-zero, and the answer is not the confirmation but a fourth text. *)
Lemma popup_fourth_outcome :
  let r := handle_call_tool Demo.no_osascript (u "show_popup")
             Demo.bogus_alert Demo.boot in
  (forall argv dur rc out err writes,
     exec Demo.no_osascript argv <> Runs dur rc out err writes)
  /\ fst r
     = Val (one_text
              (u "Error displaying popup: [Errno 2] No such file or directory: 'osascript'"))
  /\ fst r
     <> Val (one_text
               (u "Popup displayed successfully: 'Focus' - 'Back to work'"))
  /\ fst r <> Val (one_text (u "Popup display timed out")).
Proof.
  split; [intros; discriminate|].
  split; [vm_compute; reflexivity|].
  split; intros H; vm_compute in H; discriminate.
Qed.

Lemma log_activity_defaults_witness :
  let arguments := delete (u "app_name") Demo.browsing in
  let r := handle_call_tool Demo.healthy (u "log_activity") arguments
             Demo.boot in
  let path := log_path Demo.healthy in
  fst r = Val (one_text (logged_text Demo.healthy arguments))
  /\ content (snd r) path
     = content Demo.boot path
       ++ ascii_bytes
            (record_text
               (json_float Demo.healthy
                  (loop_time Demo.healthy (loop_reads Demo.boot)))
               (json_dumps Demo.healthy
                  (supplied_or arguments (u "activity")
                     (PStr (u "Unknown activity"))))
               (match arguments !! u "productive" with
                | Some v => json_dumps Demo.healthy v
                | None => u "false"
                end)
               (match arguments !! u "app_name" with
                | Some v => json_dumps Demo.healthy v
                | None => [34] ++ u "Unknown app" ++ [34]
                end))
       ++ [x0a].
Proof.
  intros arguments r path.
  assert (H1 : fst r = Val (one_text (logged_text Demo.healthy arguments)))
    by (vm_compute; reflexivity).
  split; [exact H1|].
  exact (log_activity_defaults Demo.healthy arguments Demo.boot H1).
Defined.

(** The scenario of the specification: one line, four fields. *)
Example browsing_is_logged :
  let r := handle_call_tool Demo.healthy (u "log_activity") Demo.browsing
             Demo.boot in
  files (snd r) !! log_path Demo.healthy
  = Some (ascii_bytes
            ([123; 34] ++ u "timestamp" ++ [34] ++ u ": 0.0, " ++ [34]
             ++ u "activity" ++ [34] ++ u ": " ++ [34] ++ u "browsing"
             ++ [34] ++ u ", " ++ [34] ++ u "productive" ++ [34]
             ++ u ": false, " ++ [34] ++ u "app_name" ++ [34] ++ u ": "
             ++ [34] ++ u "Safari" ++ [34; 125; 10]))
  /\ dirs (snd r)
     = {[ u "/Users"; u "/Users/dev"; u "/Users/dev/Library";
          u "/Users/dev/Library/Logs"; u "/Users/dev/Library/Logs/Cortex" ]}.
Proof. split; vm_compute; reflexivity. Qed.

(** * Further properties *)

(** ** The screenshot server: the other answers *)

(** X1. [GET /health] is answered 200 with the fixed JSON body, whatever
    state the machine is in.  Nothing else happens but one reading of the
    clock, for the log line of the request: no command is run and no file
    is touched. *)
Theorem health_check_answer E w :
  do_GET E (u "/health") w
  = (Val tt,
     answered 200
       (ascii_bytes
          ([123; 34] ++ u "status" ++ [34] ++ u ": " ++ [34] ++ u "healthy"
           ++ [34] ++ u ", " ++ [34] ++ u "server" ++ [34] ++ u ": " ++ [34]
           ++ u "mac_screenshot_server" ++ [34; 125]))
       (with_ticks (S (ticks w)) w)).
Proof.
  unfold do_GET.
  rewrite decide_False by (intros H; vm_compute in H; discriminate).
  rewrite decide_True by reflexivity.
  unfold handle_health_check. rewrite send_json. reflexivity.
Qed.

(** X2. When the capture command is not done within 10 seconds it is
    killed, and the request is answered 500 with the text of the
    [TimeoutExpired] exception, whether or not its output would have
    decoded.  What the command had written stays written: the handler
    removes nothing on this path. *)
Theorem screenshot_timeout E w dur rc out err reason writes :
  let cmd := capture_command (temp_filename_at (wall_clock E (ticks w))) in
  exec E cmd = Runs dur rc out err writes
  \/ exec E cmd = RunsGarbled dur rc reason writes ->
  finishes_within dur 10 = false ->
  let r := do_GET E (u "/screenshot") w in
  fst r = Val tt
  /\ wire (snd r)
     = wire w
       ++ json_response 500
            (error_line (u "Command '" ++ py_repr E (PList (map PStr cmd))
                         ++ u "' timed out after 10 seconds"))
  /\ procs (snd r)
     = procs w ++ [{| proc_argv := cmd; proc_status_of := Killed |}]
  /\ files (snd r) = apply_writes writes (files w).
Proof.
  intros cmd Hexec Hlate r. subst r. unfold do_GET.
  rewrite decide_True by reflexivity. rewrite screenshot_run.
  fold cmd. destruct Hexec as [Hexec|Hexec]; rewrite Hexec, Hlate;
    repeat split.
Qed.

(** X3. When the capture command cannot be started the request is
    answered 500 with the text of the operating system's error, and no
    process and no file is left behind. *)
Theorem screenshot_cannot_start E w msg :
  exec E (capture_command (temp_filename_at (wall_clock E (ticks w))))
  = CannotStart msg ->
  let r := do_GET E (u "/screenshot") w in
  fst r = Val tt
  /\ wire (snd r)
     = wire w
       ++ json_response 500
            (ascii_bytes
               (json_dumps E
                  (PDict [(u "success", PBool false);
                          (u "error", PStr msg)])))
  /\ procs (snd r) = procs w
  /\ files (snd r) = files w.
Proof.
  intros Hexec r. subst r. unfold do_GET.
  rewrite decide_True by reflexivity. rewrite screenshot_run, Hexec.
  repeat split.
Qed.

(** X4. When the capture command exits 0 in time with output that
    decodes as text, but there is no file at the temporary path, the
    request is answered 500 with the text of the [FileNotFoundError],
    not 200. *)
Theorem screenshot_file_missing E w dur out err writes :
  let path := temp_filename_at (wall_clock E (ticks w)) in
  exec E (capture_command path) = Runs dur 0 out err writes ->
  finishes_within dur 10 = true ->
  apply_writes writes (files w) !! path = None ->
  let r := do_GET E (u "/screenshot") w in
  fst r = Val tt
  /\ wire (snd r)
     = wire w
       ++ json_response 500
            (error_line (u "[Errno 2] No such file or directory: "
                         ++ str_repr E path))
  /\ status_of (drop (length (wire w)) (wire (snd r))) = Some 500.
Proof.
  intros path Hexec Htime Hfile r. subst r. unfold do_GET.
  rewrite decide_True by reflexivity. rewrite screenshot_run.
  fold path. rewrite Hexec, Htime. change (0 =? 0)%Z with true. cbv iota.
  rewrite Hfile. split; [reflexivity|]. split; [reflexivity|].
  cbn [snd answered wire with_wire with_ticks with_files with_procs
       after_capture].
  now rewrite drop_app_length.
Qed.

(** One GET request, one answer. *)
Lemma do_GET_one_answer E path w :
  exists w' evs,
    do_GET E path w = (Val tt, w')
    /\ wire w' = wire w ++ evs
    /\ (evs = [SendError 404 (u "Not Found")]
        \/ exists code body,
             evs = json_response code body /\ (code = 200 \/ code = 500)).
Proof.
  assert (Hjson : forall code body w0,
            wire w0 = wire w -> (code = 200 \/ code = 500) ->
            exists w' evs,
              (Val tt, answered code body w0) = (Val tt, w')
              /\ wire w' = wire w ++ evs
              /\ (evs = [SendError 404 (u "Not Found")]
                  \/ exists code body,
                       evs = json_response code body
                       /\ (code = 200 \/ code = 500))).
  { intros code body w0 Hw Hcode.
    exists (answered code body w0), (json_response code body).
    split; [reflexivity|]. split; [cbn; now rewrite Hw|].
    right. now exists code, body. }
  unfold do_GET.
  destruct (decide (path = u "/screenshot")) as [_|_].
  { rewrite screenshot_run.
    destruct (exec E _) as [msg|dur rc out err writes|dur rc reason writes];
      [apply Hjson; auto| |].
    - destruct (finishes_within dur 10); [|apply Hjson; auto].
      cbv zeta. destruct (rc =? 0)%Z; [|apply Hjson; auto].
      destruct (apply_writes writes (files w) !! _); [|apply Hjson; auto].
      destruct (fs_fault E _); apply Hjson; auto.
    - destruct (finishes_within dur 10); apply Hjson; auto. }
  destruct (decide (path = u "/health")) as [_|_].
  { unfold handle_health_check. rewrite send_json. apply Hjson; auto. }
  destruct (decide (path = u "/hello")) as [_|_].
  { unfold handle_hello_request. rewrite send_json. apply Hjson; auto. }
  eexists _, [SendError 404 (u "Not Found")].
  split; [reflexivity|]. split; [reflexivity|]. now left.
Qed.

(** X5. Every GET request gets exactly one answer, appended to what the
    connection already carries: either [send_error(404)], or a JSON
    answer with status 200 or 500, which always has the
    [Access-Control-Allow-Origin: *] header. *)
Theorem do_GET_answer_shape E path w :
  exists evs,
    wire (snd (do_GET E path w)) = wire w ++ evs
    /\ (evs = [SendError 404 (u "Not Found")]
        \/ exists code body,
             evs = json_response code body
             /\ (code = 200 \/ code = 500)
             /\ SendHeader (u "Access-Control-Allow-Origin") (u "*") ∈ evs).
Proof.
  destruct (do_GET_one_answer E path w) as (w' & evs & Hrun & Hwire & Hevs).
  exists evs. rewrite Hrun. split; [exact Hwire|].
  destruct Hevs as [->|(code & body & -> & Hcode)]; [now left|].
  right. exists code, body. split; [reflexivity|]. split; [exact Hcode|].
  unfold json_response. rewrite !elem_of_cons. auto.
Qed.

(** X6. A screenshot request whose command writes only the temporary
    file, at a path where there was none, and whose removal is not
    refused, leaves the file system exactly as it found it. *)
Theorem screenshot_leaves_no_file E w dur out err data :
  let path := temp_filename_at (wall_clock E (ticks w)) in
  exec E (capture_command path) = Runs dur 0 out err [(path, data)] ->
  finishes_within dur 10 = true ->
  fs_fault E (OpRemove path) = None ->
  files w !! path = None ->
  files (snd (do_GET E (u "/screenshot") w)) = files w.
Proof.
  intros path Hexec Htime Hrm Hfresh. unfold do_GET.
  rewrite decide_True by reflexivity. rewrite screenshot_run.
  fold path. rewrite Hexec, Htime. change (0 =? 0)%Z with true. cbv iota zeta.
  cbn [apply_writes fold_left fst snd]. rewrite lookup_insert_eq, Hrm.
  cbn [snd files answered with_wire with_ticks with_files with_procs
       after_capture apply_writes fold_left fst].
  now apply delete_insert_id.
Qed.

(** X9. A GET request starts at most one process, and only
    [/screenshot] starts one: the capture command for the temporary file
    named after the current second. *)
Theorem do_GET_processes E path w :
  procs (snd (do_GET E path w)) = procs w
  \/ exists status,
       path = u "/screenshot"
       /\ procs (snd (do_GET E path w))
          = procs w
            ++ [{| proc_argv :=
                     capture_command
                       (temp_filename_at (wall_clock E (ticks w)));
                   proc_status_of := status |}].
Proof.
  unfold do_GET.
  destruct (decide (path = u "/screenshot")) as [->|_].
  { rewrite screenshot_run.
    destruct (exec E _) as [msg|dur rc out err writes|dur rc reason writes];
      [now left| |]; right.
    - destruct (finishes_within dur 10); [|eexists; split; reflexivity].
      cbv zeta. destruct (rc =? 0)%Z; [|eexists; split; reflexivity].
      destruct (apply_writes writes (files w) !! _);
        [|eexists; split; reflexivity].
      destruct (fs_fault E _); eexists; split; reflexivity.
    - destruct (finishes_within dur 10); eexists; split; reflexivity. }
  left.
  destruct (decide (path = u "/health")) as [_|_].
  { unfold handle_health_check. now rewrite send_json. }
  destruct (decide (path = u "/hello")) as [_|_].
  { unfold handle_hello_request. now rewrite send_json. }
  reflexivity.
Qed.

(** X10. [GET /screenshot] is answered 200 only when the capture command
    has exited 0 in time and its file was there to read: a failed capture
    is never reported as a success. *)
Theorem screenshot_200_only_if_captured E w :
  let path := temp_filename_at (wall_clock E (ticks w)) in
  status_of (drop (length (wire w))
               (wire (snd (do_GET E (u "/screenshot") w)))) = Some 200 ->
  exists dur out err writes data,
    exec E (capture_command path) = Runs dur 0 out err writes
    /\ finishes_within dur 10 = true
    /\ apply_writes writes (files w) !! path = Some data.
Proof.
  intros path. unfold do_GET. rewrite decide_True by reflexivity.
  rewrite screenshot_run. fold path.
  assert (Hbad : forall body w',
            wire w' = wire w ->
            status_of (drop (length (wire w))
                         (wire (snd (Val tt, answered 500 body w'))))
            = Some 200 -> False).
  { intros body w' Hw. cbn [snd answered wire with_wire]. rewrite Hw.
    rewrite drop_app_length. cbn. discriminate. }
  destruct (exec E (capture_command path))
    as [msg|dur rc out err writes|dur rc reason writes] eqn:Hexec;
    [intros H; now apply Hbad in H| |].
  - destruct (finishes_within dur 10) eqn:Htime;
      [|intros H; now apply Hbad in H].
    cbv zeta. destruct (Z.eqb_spec rc 0) as [->|_];
      [|intros H; now apply Hbad in H].
    destruct (apply_writes writes (files w) !! path) as [data|] eqn:Hfile;
      [|intros H; now apply Hbad in H].
    intros _. exists dur, out, err, writes, data. auto.
  - destruct (finishes_within dur 10); intros H; now apply Hbad in H.
Qed.

(** ** The server loop *)

Lemma statuses_app a b : statuses (a ++ b) = statuses a ++ statuses b.
Proof.
  induction a as [|[code|k v| |data|code msg] a IH]; cbn [statuses app];
    rewrite ?IH; reflexivity.
Qed.

(** X11. However many GET requests the server takes, it answers each of
    them once and in order, with status 200, 404 or 500, and no exception
    stops the loop. *)
Theorem serve_forever_answers_each E paths w :
  exists w' codes,
    serve_forever E paths w = (Val tt, w')
    /\ statuses (wire w') = statuses (wire w) ++ codes
    /\ length codes = length paths
    /\ Forall (fun code => code = 200 \/ code = 404 \/ code = 500) codes.
Proof.
  revert w. induction paths as [|path rest IH]; intros w.
  - exists w, []. cbn. rewrite app_nil_r. auto.
  - cbn [serve_forever]. unfold bind.
    destruct (do_GET_one_answer E path w) as (w1 & evs & Hrun & Hwire & Hevs).
    rewrite Hrun.
    destruct (IH w1) as (w' & codes & Hserve & Hst & Hlen & Hall).
    assert (Hone : exists code, statuses evs = [code]
                     /\ (code = 200 \/ code = 404 \/ code = 500)).
    { destruct Hevs as [->|(code & body & -> & Hcode)].
      - exists 404. auto.
      - exists code. split; [reflexivity|]. tauto. }
    destruct Hone as (code & Hcode & Hrange).
    exists w', (code :: codes). split; [exact Hserve|].
    split; [|split; [cbn; now rewrite Hlen | now constructor]].
    rewrite Hst, Hwire, statuses_app, Hcode, <- app_assoc. reflexivity.
Qed.

(** ** The temporary file name *)

Lemma pad_app_inj k n m r1 r2 :
  (0 < k)%nat -> n < 10 ^ N.of_nat k -> m < 10 ^ N.of_nat k ->
  pad k n ++ r1 = pad k m ++ r2 -> n = m /\ r1 = r2.
Proof.
  intros Hk Hn Hm Heq. apply (f_equal (take_digits k)) in Heq.
  rewrite !take_digits_pad in Heq by assumption.
  now inversion Heq.
Qed.

(** X8. The temporary file of a screenshot is named after the second it
    is taken in and nothing else: two requests get the same file name
    exactly when they fall within the same second. *)
Theorem temp_filename_same_second a b :
  valid_datetime a = true -> valid_datetime b = true ->
  temp_filename_at a = temp_filename_at b <-> same_second a b.
Proof.
  intros Ha Hb.
  destruct (valid_datetime_bounds a Ha) as (Hy & Hmo & Hd & Hh & Hmi & Hs & _).
  destruct (valid_datetime_bounds b Hb) as (Hy' & Hmo' & Hd' & Hh' & Hmi' & Hs' & _).
  unfold same_second, temp_filename_at, strftime_compact. split.
  - intros Heq. apply app_inv_head, app_inv_tail in Heq.
    apply pad_app_inj in Heq as [Ey Heq]; [|lia|assumption..].
    apply pad_app_inj in Heq as [Emo Heq]; [|lia|assumption..].
    apply pad_app_inj in Heq as [Ed Heq]; [|lia|assumption..].
    apply app_inv_head in Heq.
    apply pad_app_inj in Heq as [Eh Heq]; [|lia|assumption..].
    apply pad_app_inj in Heq as [Emi Heq]; [|lia|assumption..].
    rewrite <- (app_nil_r (pad 2 (second a))) in Heq.
    rewrite <- (app_nil_r (pad 2 (second b))) in Heq.
    apply pad_app_inj in Heq as [Es _]; [|lia|assumption..].
    repeat split; assumption.
  - intros (-> & -> & -> & -> & -> & ->). reflexivity.
Qed.

(** ** The image in the answer *)

(** X17. The text [b64encode] produces is made of the 64 characters of
    the alphabet and [=] only. *)
Theorem b64encode_alphabet bs :
  Forall (fun c => c ∈ Base64.pad_char :: Base64.alphabet)
         (Base64.b64encode bs).
Proof.
  assert (Hc : forall i, Base64.b64_char i
                         ∈ Base64.pad_char :: Base64.alphabet).
  { intros i. apply list_elem_of_In, b64_char_in_alphabet. }
  assert (Hp : Base64.pad_char ∈ Base64.pad_char :: Base64.alphabet)
    by apply list_elem_of_here.
  induction bs as [|a|a b|a b c l IH] using list_ind3;
    cbn [Base64.b64encode]; cbv zeta;
    repeat (apply Forall_cons; split; [auto|]); auto.
Qed.

(** X16. [n] bytes give [4 * ceil(n / 3)] characters. *)
Theorem b64encode_length bs :
  length (Base64.b64encode bs) = (4 * ((length bs + 2) / 3))%nat.
Proof.
  induction bs as [|a|a b|a b c l IH] using list_ind3;
    cbn [Base64.b64encode length]; try reflexivity.
  rewrite IH.
  replace (S (S (S (length l))) + 2)%nat with (1 * 3 + (length l + 2))%nat
    by lia.
  rewrite Nat.div_add_l by lia. lia.
Qed.

(** X7. In a 200 answer the image is the base64 text itself and the
    timestamp the ISO text itself, each between double quotes:
    [json.dumps] escapes nothing in them, so the body is this line. *)
Theorem screenshot_body_text E w dur out err writes data :
  let path := temp_filename_at (wall_clock E (ticks w)) in
  let served := wall_clock E (S (ticks w)) in
  exec E (capture_command path) = Runs dur 0 out err writes ->
  finishes_within dur 10 = true ->
  apply_writes writes (files w) !! path = Some data ->
  wire (snd (do_GET E (u "/screenshot") w))
  = wire w
    ++ json_response 200
         (ascii_bytes
            ([123; 34] ++ u "success" ++ [34] ++ u ": true, "
             ++ [34] ++ u "image" ++ [34] ++ u ": "
             ++ [34] ++ Base64.b64encode data ++ [34] ++ u ", "
             ++ [34] ++ u "timestamp" ++ [34] ++ u ": "
             ++ [34] ++ isoformat served ++ [34; 125])).
Proof.
  intros path served Hexec Htime Hfile. unfold do_GET.
  rewrite decide_True by reflexivity. rewrite screenshot_run.
  fold path served. rewrite Hexec, Htime. change (0 =? 0)%Z with true.
  cbv iota zeta. rewrite Hfile.
  cbn [snd answered wire with_wire with_ticks].
  destruct (fs_fault E (OpRemove path)); reflexivity.
Qed.

(** ** The tool list and the tool-call handler *)

Lemma text_content_head a b :
  Val (text_content a) = Val (text_content b) -> hd 0 a = hd 0 b.
Proof. intros H. inversion H. reflexivity. Qed.

(** X12. The handler knows exactly the tools that [handle_list_tools]
    lists: a call is answered ["Unknown tool: <name>"] if and only if
    [name] is not the name of a listed tool. *)
Theorem listed_tools_are_handled E name arguments w :
  name ∈ map tool_name handle_list_tools
  <-> fst (handle_call_tool E name arguments w)
      <> Val (text_content (u "Unknown tool: " ++ name)).
Proof.
  change (map tool_name handle_list_tools)
    with [u "show_popup"; u "log_activity"].
  rewrite !elem_of_cons, elem_of_nil. split.
  - assert (Hne : forall a,
              hd 0 a <> 85 ->
              Val (text_content a)
              <> Val (text_content (u "Unknown tool: " ++ name))).
    { intros a Ha H. apply text_content_head in H. now apply Ha. }
    intros [-> | [-> | []]].
    + rewrite show_popup_run.
      destruct (exec E _) as [msg|dur rc out err writes|dur rc reason writes];
        [now apply Hne| |].
      * destruct (finishes_within dur 15); [|now apply Hne].
        cbn [fst]. destruct (rc =? 0)%Z; now apply Hne.
      * destruct (finishes_within dur 15); now apply Hne.
    + destruct (log_activity_run E arguments w)
        as (ds & refused & _ & _ & _ & _ & Hrun).
      cbv zeta in Hrun. rewrite Hrun.
      destruct refused; [now apply Hne|].
      destruct (fs_fault E (OpOpenAppend (log_path E))); [now apply Hne|].
      destruct (fs_fault E (OpWrite (log_path E))); now apply Hne.
  - intros H.
    destruct (decide (name = u "show_popup")) as [?|H1]; [now left|].
    destruct (decide (name = u "log_activity")) as [?|H2]; [now right; left|].
    exfalso. apply H. unfold handle_call_tool.
    rewrite !decide_False by assumption. reflexivity.
Qed.

Lemma dict_get_insert_ne (arguments : gmap pystr pyval) key v k d :
  k <> key -> dict_get (<[key := v]> arguments) k d = dict_get arguments k d.
Proof. intros H. unfold dict_get. now rewrite lookup_insert_ne by congruence. Qed.

(** X13. An argument that the schema of the called tool does not declare
    is ignored: adding it, with any value, changes nothing in what the
    call does or answers. *)
Theorem undeclared_argument_ignored E name key v arguments w :
  key ∉ declared_params name ->
  handle_call_tool E name (<[key := v]> arguments) w
  = handle_call_tool E name arguments w.
Proof.
  intros Hkey.
  destruct (decide (name = u "show_popup")) as [->|H1].
  - change (declared_params (u "show_popup"))
      with [u "title"; u "message"; u "severity"] in Hkey.
    rewrite !not_elem_of_cons in Hkey. destruct Hkey as (K1 & K2 & K3 & _).
    rewrite !show_popup_run.
    unfold popup_title, popup_message, popup_severity.
    rewrite !dict_get_insert_ne by congruence. reflexivity.
  - destruct (decide (name = u "log_activity")) as [->|H2].
    + change (declared_params (u "log_activity"))
        with [u "activity"; u "productive"; u "app_name"] in Hkey.
      rewrite !not_elem_of_cons in Hkey. destruct Hkey as (K1 & K2 & K3 & _).
      unfold handle_call_tool.
      rewrite !decide_False by (intros H; vm_compute in H; discriminate).
      rewrite !decide_True by reflexivity.
      rewrite !dict_get_insert_ne by congruence. reflexivity.
    + unfold handle_call_tool. rewrite !decide_False by assumption.
      reflexivity.
Qed.

(** Every directory of the chain is the beginning of the path. *)
Lemma dir_chain_from_prefix acc rest d :
  d ∈ dir_chain_from acc rest -> d `prefix_of` acc ++ rest.
Proof.
  revert acc. induction rest as [|c rest IH]; intros acc Hd.
  - cbn [dir_chain_from] in Hd. destruct (last acc) as [x|];
      [|now apply elem_of_nil in Hd].
    destruct (x =? 47); [now apply elem_of_nil in Hd|].
    apply list_elem_of_singleton in Hd as ->. now exists [].
  - cbn [dir_chain_from] in Hd. apply elem_of_app in Hd as [Hd|Hd].
    + destruct (c =? 47); [|now apply elem_of_nil in Hd].
      destruct (last acc) as [x|]; [|now apply elem_of_nil in Hd].
      destruct (x =? 47); [now apply elem_of_nil in Hd|].
      apply list_elem_of_singleton in Hd as ->. now exists (c :: rest).
    + apply IH in Hd. now rewrite <- app_assoc in Hd.
Qed.

(** X14. [log_activity] works on the log only: whatever its arguments
    and whether it succeeds or fails, it starts no process, writes
    nothing on a connection and leaves every file other than the
    activity log as it was.  It removes no directory, and those it makes
    are the log directory and missing directories above it; after a
    confirmed call the log directory exists. *)
Theorem log_activity_frame E arguments w :
  let r := handle_call_tool E (u "log_activity") arguments w in
  let w' := snd r in
  procs w' = procs w
  /\ wire w' = wire w
  /\ (forall p, p <> log_path E -> files w' !! p = files w !! p)
  /\ dirs w ⊆ dirs w'
  /\ (forall d, d ∈ dirs w' ->
        d ∈ dirs w
        \/ (d ∈ dir_chain (log_dir E) /\ d `prefix_of` log_dir E))
  /\ (fst r = Val (one_text (logged_text E arguments)) ->
      log_dir E ∈ dirs w').
Proof.
  intros r w'.
  destruct (log_activity_run E arguments w)
    as (ds & refused & Hsub & Hnew & _ & Hleaf & Hrun).
  cbv zeta in Hrun.
  assert (Hr : r = handle_call_tool E (u "log_activity") arguments w)
    by reflexivity.
  clearbody r. rewrite Hrun in Hr. clear Hrun.
  assert (Hnew' : forall d, d ∈ ds ->
            d ∈ dirs w
            \/ (d ∈ dir_chain (log_dir E) /\ d `prefix_of` log_dir E)).
  { intros d Hd. destruct (Hnew d Hd) as [?|[Hin _]]; [now left|right].
    split; [exact Hin|]. now apply (dir_chain_from_prefix [] (log_dir E)). }
  assert (Hfiles : forall fs p,
            p <> log_path E ->
            <[log_path E := fs]> (files w) !! p = files w !! p).
  { intros fs p Hp. now rewrite lookup_insert_ne by congruence. }
  destruct refused as [msg|].
  { subst r w'. repeat split; try assumption.
    intros H. now apply failed_is_not_logged in H. }
  destruct (fs_fault E (OpOpenAppend (log_path E))) as [msg|].
  { subst r w'. repeat split; try assumption.
    intros H. now apply failed_is_not_logged in H. }
  destruct (log_dir_is_made_last E) as (rest & Hrest).
  specialize (Hleaf eq_refl _ _ Hrest).
  destruct (fs_fault E (OpWrite (log_path E))) as [msg|];
    subst r w'; cbn [fst snd procs wire files dirs with_files with_dirs
                     with_loop_reads];
    repeat split; try assumption; try (apply Hfiles); auto.
Qed.

(** X15. The activity log is append-only: after any [log_activity] call,
    successful or not, what the log held before is still there, as a
    prefix of what it holds now. *)
Theorem log_activity_append_only E arguments w :
  content w (log_path E)
  `prefix_of`
  content (snd (handle_call_tool E (u "log_activity") arguments w))
          (log_path E).
Proof.
  destruct (log_activity_run E arguments w)
    as (ds & refused & _ & _ & _ & _ & Hrun).
  cbv zeta in Hrun. rewrite Hrun.
  destruct refused; [reflexivity|].
  destruct (fs_fault E (OpOpenAppend (log_path E))); [reflexivity|].
  destruct (fs_fault E (OpWrite (log_path E)));
    unfold content at 2; cbn [snd files with_files with_dirs];
    rewrite lookup_insert_eq; cbn [default].
  - reflexivity.
  - now apply prefix_app_r.
Qed.

(** X18. Two [log_activity] calls in a row, on a machine that refuses no
    file operation, add their two lines to the log in the order of the
    calls, each stamped with its own reading of the event loop's clock:
    the second call reads the clock again. *)
Theorem log_activity_twice E first second w :
  refuses_nothing E ->
  let run := (handle_call_tool E (u "log_activity") first ;;
              handle_call_tool E (u "log_activity") second)%py in
  fst (run w) = Val (one_text (logged_text E second))
  /\ content (snd (run w)) (log_path E)
     = content w (log_path E)
       ++ log_line E (loop_time E (loop_reads w)) first
       ++ log_line E (loop_time E (S (loop_reads w))) second
  /\ loop_reads (snd (run w)) = S (S (loop_reads w)).
Proof.
  intros Hfree run. subst run. unfold bind.
  rewrite (log_activity_unrefused E first w Hfree).
  set (w1 := with_files _ _).
  rewrite (log_activity_unrefused E second w1 Hfree).
  assert (Hreads : loop_reads w1 = S (loop_reads w)) by reflexivity.
  assert (Hcontent : content w1 (log_path E)
                     = content w (log_path E)
                       ++ log_line E (loop_time E (loop_reads w)) first).
  { unfold content at 1. subst w1. cbn [files with_files].
    now rewrite lookup_insert_eq. }
  rewrite Hreads, Hcontent. split; [reflexivity|]. split.
  - unfold content at 1. cbn [snd files with_files].
    rewrite lookup_insert_eq. cbn [default]. now rewrite <- app_assoc.
  - cbn [snd loop_reads with_files with_dirs with_loop_reads]. reflexivity.
Qed.

(** X19. [show_popup] answers with its confirmation only when the alert
    command has exited 0 within 15 seconds. *)
Theorem popup_confirmed_only_if_shown E arguments w rest :
  let cmd := alert_command E (popup_title arguments)
               (popup_message arguments) (popup_severity arguments) in
  fst (handle_call_tool E (u "show_popup") arguments w)
  = Val (text_content (u "Popup displayed successfully: '" ++ rest)) ->
  exists dur out err writes,
    exec E cmd = Runs dur 0 out err writes
    /\ finishes_within dur 15 = true.
Proof.
  intros cmd. rewrite show_popup_run. fold cmd.
  assert (Hnth : forall a b,
            Val (text_content a) = Val (text_content b) ->
            nth 13 a 0 = nth 13 b 0 /\ hd 0 a = hd 0 b).
  { intros a b H. inversion H. auto. }
  destruct (exec E cmd)
    as [msg|dur rc out err writes|dur rc reason writes] eqn:Hexec.
  { intros H. apply Hnth in H as [_ H]. discriminate. }
  - destruct (finishes_within dur 15) eqn:Htime.
    2:{ intros H. apply Hnth in H as [H _]. discriminate. }
    cbn [fst]. destruct (Z.eqb_spec rc 0) as [->|_].
    + intros _. now exists dur, out, err, writes.
    + intros H. apply Hnth in H as [_ H]. discriminate.
  - destruct (finishes_within dur 15).
    + intros H. apply Hnth in H as [_ H]. discriminate.
    + intros H. apply Hnth in H as [H _]. discriminate.
Qed.

(** X20. [show_popup] writes no file itself and nothing on a connection:
    the file system changes only by what the alert command has written,
    and what it has written stays written also when the command is
    killed at the time limit. *)
Theorem show_popup_frame E arguments w :
  let cmd :=
    [u "osascript"; u "-e";
     alert_script
       (py_str E (supplied_or arguments (u "title")
                    (PStr (u "Productivity Alert"))))
       (py_str E (supplied_or arguments (u "message")
                    (PStr (u "Please return to your productive work"))))
       (py_str E (supplied_or arguments (u "severity")
                    (PStr (u "warning"))))] in
  let w' := snd (handle_call_tool E (u "show_popup") arguments w) in
  wire w' = wire w
  /\ dirs w' = dirs w
  /\ files w'
     = match exec E cmd with
       | Runs _ _ _ _ writes | RunsGarbled _ _ _ writes =>
           apply_writes writes (files w)
       | CannotStart _ => files w
       end.
Proof.
  intros cmd w'. subst w'. rewrite show_popup_run.
  change (alert_command E (popup_title arguments) (popup_message arguments)
            (popup_severity arguments)) with cmd.
  destruct (exec E cmd) as [msg|dur rc out err writes|dur rc reason writes];
    [auto| |]; destruct (finishes_within dur 15); auto.
Qed.

(** X21. Whatever the arguments hold, the line written to the log is
    plain ASCII: printable characters and the final newline, every other
    character having been escaped by [json.dumps]. *)
Theorem log_line_is_ascii E now arguments :
  Forall (fun b => b = x0a \/ 32 <= Byte.to_N b < 127)
         (log_line E now arguments).
Proof.
  apply Forall_forall. intros b.
  unfold log_line. rewrite elem_of_app, list_elem_of_singleton.
  intros [Hb | ->]; [right | now left].
  unfold ascii_bytes in Hb. apply list_elem_of_fmap in Hb as (c & -> & Hc).
  pose proof (json_dumps_printable E (log_entry_of now arguments)) as Hall.
  rewrite Forall_forall in Hall. specialize (Hall c Hc).
  unfold printable in Hall. unfold byte_of_N.
  destruct (Byte.of_N c) as [x|] eqn:Hx.
  - apply Byte.to_of_N in Hx. now subst.
  - apply Byte.of_N_None_iff in Hx. lia.
Qed.

(** ** Concrete runs of the further properties *)

Lemma screenshot_timeout_witness :
  let path := temp_filename_at Demo.noon in
  let cmd := capture_command path in
  let r := do_GET Cases.hangs_after_writing (u "/screenshot") Demo.boot in
  (exec Cases.hangs_after_writing cmd
   = Runs None 0 [] [] [(path, Demo.png_stub)]
   \/ exec Cases.hangs_after_writing cmd
      = RunsGarbled None 0 [] [(path, Demo.png_stub)])
  /\ finishes_within None 10 = false
  /\ fst r = Val tt
  /\ wire (snd r)
     = wire Demo.boot
       ++ json_response 500
            (error_line
               (u "Command '"
                ++ py_repr Cases.hangs_after_writing (PList (map PStr cmd))
                ++ u "' timed out after 10 seconds"))
  /\ procs (snd r)
     = procs Demo.boot ++ [{| proc_argv := cmd; proc_status_of := Killed |}]
  /\ files (snd r)
     = apply_writes [(path, Demo.png_stub)] (files Demo.boot).
Proof.
  intros path cmd r.
  assert (H1 : exec Cases.hangs_after_writing cmd
               = Runs None 0 [] [] [(path, Demo.png_stub)]
               \/ exec Cases.hangs_after_writing cmd
                  = RunsGarbled None 0 [] [(path, Demo.png_stub)])
    by (left; reflexivity).
  assert (H2 : finishes_within None 10 = false) by reflexivity.
  split; [exact H1|]. split; [exact H2|].
  exact (screenshot_timeout Cases.hangs_after_writing Demo.boot None 0 [] []
           [] [(path, Demo.png_stub)] H1 H2).
Defined.

Lemma screenshot_cannot_start_witness :
  let r := do_GET Demo.no_osascript (u "/screenshot") Demo.boot in
  let msg := u "[Errno 2] No such file or directory: 'osascript'" in
  exec Demo.no_osascript (capture_command (temp_filename_at Demo.noon))
  = CannotStart msg
  /\ fst r = Val tt
  /\ wire (snd r)
     = wire Demo.boot
       ++ json_response 500
            (ascii_bytes
               (json_dumps Demo.no_osascript
                  (PDict [(u "success", PBool false);
                          (u "error", PStr msg)])))
  /\ procs (snd r) = procs Demo.boot
  /\ files (snd r) = files Demo.boot.
Proof.
  intros r msg.
  assert (H1 : exec Demo.no_osascript
                 (capture_command (temp_filename_at Demo.noon))
               = CannotStart msg) by reflexivity.
  split; [exact H1|].
  exact (screenshot_cannot_start Demo.no_osascript Demo.boot msg H1).
Defined.

Lemma screenshot_file_missing_witness :
  let path := temp_filename_at Demo.noon in
  let r := do_GET Cases.silent (u "/screenshot") Demo.boot in
  exec Cases.silent (capture_command path) = Runs (Some 120) 0 [] [] []
  /\ finishes_within (Some 120) 10 = true
  /\ apply_writes [] (files Demo.boot) !! path = None
  /\ fst r = Val tt
  /\ wire (snd r)
     = wire Demo.boot
       ++ json_response 500
            (error_line (u "[Errno 2] No such file or directory: "
                         ++ str_repr Cases.silent path))
  /\ status_of (drop (length (wire Demo.boot)) (wire (snd r))) = Some 500.
Proof.
  intros path r.
  assert (H1 : exec Cases.silent (capture_command path)
               = Runs (Some 120) 0 [] [] []) by reflexivity.
  assert (H2 : finishes_within (Some 120) 10 = true) by reflexivity.
  assert (H3 : apply_writes [] (files Demo.boot) !! path = None)
    by reflexivity.
  repeat (split; [assumption|]).
  exact (screenshot_file_missing Cases.silent Demo.boot (Some 120) [] [] []
           H1 H2 H3).
Defined.

Lemma screenshot_leaves_no_file_witness :
  let path := temp_filename_at Demo.noon in
  exec Demo.healthy (capture_command path)
  = Runs (Some 200) 0 [] [] [(path, Demo.png_stub)]
  /\ finishes_within (Some 200) 10 = true
  /\ fs_fault Demo.healthy (OpRemove path) = None
  /\ files Demo.boot !! path = None
  /\ files (snd (do_GET Demo.healthy (u "/screenshot") Demo.boot))
     = files Demo.boot.
Proof.
  intros path.
  assert (H1 : exec Demo.healthy (capture_command path)
               = Runs (Some 200) 0 [] [] [(path, Demo.png_stub)])
    by reflexivity.
  assert (H2 : finishes_within (Some 200) 10 = true) by reflexivity.
  assert (H3 : fs_fault Demo.healthy (OpRemove path) = None) by reflexivity.
  assert (H4 : files Demo.boot !! path = None) by reflexivity.
  repeat (split; [assumption|]).
  exact (screenshot_leaves_no_file Demo.healthy Demo.boot (Some 200) [] []
           Demo.png_stub H1 H2 H3 H4).
Defined.

Lemma screenshot_body_text_witness :
  let path := temp_filename_at Demo.noon in
  exec Demo.healthy (capture_command path)
  = Runs (Some 200) 0 [] [] [(path, Demo.png_stub)]
  /\ finishes_within (Some 200) 10 = true
  /\ apply_writes [(path, Demo.png_stub)] (files Demo.boot) !! path
     = Some Demo.png_stub
  /\ wire (snd (do_GET Demo.healthy (u "/screenshot") Demo.boot))
     = wire Demo.boot
       ++ json_response 200
            (ascii_bytes
               ([123; 34] ++ u "success" ++ [34] ++ u ": true, "
                ++ [34] ++ u "image" ++ [34] ++ u ": "
                ++ [34] ++ Base64.b64encode Demo.png_stub ++ [34] ++ u ", "
                ++ [34] ++ u "timestamp" ++ [34] ++ u ": "
                ++ [34] ++ isoformat Demo.noon ++ [34; 125])).
Proof.
  intros path.
  assert (H1 : exec Demo.healthy (capture_command path)
               = Runs (Some 200) 0 [] [] [(path, Demo.png_stub)])
    by reflexivity.
  assert (H2 : finishes_within (Some 200) 10 = true) by reflexivity.
  assert (H3 : apply_writes [(path, Demo.png_stub)] (files Demo.boot) !! path
               = Some Demo.png_stub) by (vm_compute; reflexivity).
  repeat (split; [assumption|]).
  exact (screenshot_body_text Demo.healthy Demo.boot (Some 200) [] []
           [(path, Demo.png_stub)] Demo.png_stub H1 H2 H3).
Defined.

Lemma temp_filename_same_second_witness :
  valid_datetime Demo.noon = true
  /\ valid_datetime Cases.noon_later = true
  /\ (temp_filename_at Demo.noon = temp_filename_at Cases.noon_later
      <-> same_second Demo.noon Cases.noon_later).
Proof.
  assert (H1 : valid_datetime Demo.noon = true) by reflexivity.
  assert (H2 : valid_datetime Cases.noon_later = true) by reflexivity.
  split; [exact H1|]. split; [exact H2|].
  exact (temp_filename_same_second Demo.noon Cases.noon_later H1 H2).
Defined.

Lemma screenshot_200_only_if_captured_witness :
  let path := temp_filename_at Demo.noon in
  status_of (drop (length (wire Demo.boot))
               (wire (snd (do_GET Demo.healthy (u "/screenshot") Demo.boot))))
  = Some 200
  /\ exists dur out err writes data,
       exec Demo.healthy (capture_command path) = Runs dur 0 out err writes
       /\ finishes_within dur 10 = true
       /\ apply_writes writes (files Demo.boot) !! path = Some data.
Proof.
  intros path.
  assert (H1 : status_of
                 (drop (length (wire Demo.boot))
                    (wire (snd (do_GET Demo.healthy (u "/screenshot")
                                  Demo.boot))))
               = Some 200) by (vm_compute; reflexivity).
  split; [exact H1|].
  exact (screenshot_200_only_if_captured Demo.healthy Demo.boot H1).
Defined.

Lemma undeclared_argument_ignored_witness :
  (u "colour" ∉ declared_params (u "show_popup"))
  /\ handle_call_tool Demo.healthy (u "show_popup")
       (<[u "colour" := PStr (u "red")]> Demo.bogus_alert) Demo.boot
     = handle_call_tool Demo.healthy (u "show_popup") Demo.bogus_alert
         Demo.boot.
Proof.
  assert (H1 : u "colour" ∉ declared_params (u "show_popup")).
  { change (declared_params (u "show_popup"))
      with [u "title"; u "message"; u "severity"].
    rewrite !not_elem_of_cons.
    repeat (split; [intros H; vm_compute in H; discriminate|]).
    apply not_elem_of_nil. }
  split; [exact H1|].
  exact (undeclared_argument_ignored Demo.healthy (u "show_popup")
           (u "colour") (PStr (u "red")) Demo.bogus_alert Demo.boot H1).
Defined.

Lemma log_activity_twice_witness :
  let run := (handle_call_tool Cases.ticking (u "log_activity") Demo.browsing ;;
              handle_call_tool Cases.ticking (u "log_activity") Cases.coding)%py
  in
  refuses_nothing Cases.ticking
  /\ fst (run Demo.boot)
     = Val (one_text (logged_text Cases.ticking Cases.coding))
  /\ content (snd (run Demo.boot)) (log_path Cases.ticking)
     = content Demo.boot (log_path Cases.ticking)
       ++ log_line Cases.ticking
            (loop_time Cases.ticking (loop_reads Demo.boot)) Demo.browsing
       ++ log_line Cases.ticking
            (loop_time Cases.ticking (S (loop_reads Demo.boot))) Cases.coding
  /\ loop_reads (snd (run Demo.boot)) = S (S (loop_reads Demo.boot)).
Proof.
  intros run.
  assert (H1 : refuses_nothing Cases.ticking) by (intros op; reflexivity).
  split; [exact H1|].
  exact (log_activity_twice Cases.ticking Demo.browsing Cases.coding Demo.boot
           H1).
Defined.

(** Two calls on a machine whose clock moves: the two lines carry the two
    readings. *)
Example two_calls_two_timestamps :
  let run := (handle_call_tool Cases.ticking (u "log_activity") Demo.browsing ;;
              handle_call_tool Cases.ticking (u "log_activity") Cases.coding)%py
  in
  content (snd (run Demo.boot)) (log_path Cases.ticking)
  = ascii_bytes
      (record_text (u "1.0") ([34] ++ u "browsing" ++ [34]) (u "false")
         ([34] ++ u "Safari" ++ [34]))
    ++ [x0a]
    ++ ascii_bytes
         (record_text (u "2.0") ([34] ++ u "coding" ++ [34]) (u "true")
            ([34] ++ u "Unknown app" ++ [34]))
    ++ [x0a].
Proof. vm_compute. reflexivity. Qed.

Lemma popup_confirmed_only_if_shown_witness :
  let cmd := alert_command Demo.healthy (popup_title Demo.bogus_alert)
               (popup_message Demo.bogus_alert)
               (popup_severity Demo.bogus_alert) in
  fst (handle_call_tool Demo.healthy (u "show_popup") Demo.bogus_alert
         Demo.boot)
  = Val (text_content
           (u "Popup displayed successfully: '" ++ u "Focus' - 'Back to work'"))
  /\ exists dur out err writes,
       exec Demo.healthy cmd = Runs dur 0 out err writes
       /\ finishes_within dur 15 = true.
Proof.
  intros cmd.
  assert (H1 : fst (handle_call_tool Demo.healthy (u "show_popup")
                      Demo.bogus_alert Demo.boot)
               = Val (text_content
                        (u "Popup displayed successfully: '"
                         ++ u "Focus' - 'Back to work'")))
    by (vm_compute; reflexivity).
  split; [exact H1|].
  exact (popup_confirmed_only_if_shown Demo.healthy Demo.bogus_alert
           Demo.boot (u "Focus' - 'Back to work'") H1).
Defined.
